(** * UGV ground-station handler: a shallow embedding of
      [server/handlers/ugv/prod.py]

    The handler is a Python class whose methods read a vehicle link
    (a dronekit [Vehicle]), mutate the handler's own attributes and
    signal failure with exceptions.  The embedding keeps that shape:

    - Python [float]s are idealised as exact numbers: telemetry values
      are real numbers ([R]), literals parsed from text are rationals;
    - text is ASCII text ([string]);
    - a method is a computation in a state-and-exception monad over the
      [world]: the handler object, the objects it can reach and a log of
      the accesses made to the vehicle link;
    - [try: ... except ...] is [try_except]; a statement that raises
      leaves the assignments made before it in place. *)

From Stdlib Require Import Reals Lra ZArith QArith Lia.
From Stdlib Require Floats.
From Stdlib Require Import String Ascii List.
From stdpp Require Import gmap strings.

Import ListNotations.
Local Open Scope string_scope.
Local Open Scope list_scope.

(** ** Exceptions *)

Module Exn.

(** The exception classes the handler raises or catches.
    [GeneralError], [InvalidRequestError] and [InvalidStateError] come
    from [utils.errors]; [TimeoutError] and [ValueError] are Python's
    built-in classes; [PyException] stands for a plain [Exception(msg)]
    and [OtherError] for any other exception class ([AttributeError],
    [KeyError], [IndexError], an error of the link library, ...), known
    by its class name and message. *)
Inductive exn : Type :=
| GeneralError (msg : string)
| InvalidRequestError (msg : string)
| InvalidStateError (msg : string)
| TimeoutError (msg : string)
| ValueError (msg : string)
| PyException (msg : string)
| OtherError (cls : string) (msg : string).

(** Modelled from the spec: the classes of [utils.errors] carry the
    message they are built with ("always carries the original
    message"), so [str(e)] is that message, as it is for the built-in
    classes. *)
Definition str (e : exn) : string :=
  match e with
  | GeneralError m | InvalidRequestError m | InvalidStateError m
  | TimeoutError m | ValueError m | PyException m | OtherError _ m => m
  end.

Definition is_TimeoutError (e : exn) : bool :=
  match e with TimeoutError _ => true | _ => false end.

Definition is_InvalidStateError (e : exn) : bool :=
  match e with InvalidStateError _ => true | _ => false end.

Definition is_ValueError (e : exn) : bool :=
  match e with ValueError _ => true | _ => false end.

Definition is_GeneralError (e : exn) : bool :=
  match e with GeneralError _ => true | _ => false end.

Definition is_InvalidRequestError (e : exn) : bool :=
  match e with InvalidRequestError _ => true | _ => false end.

End Exn.
Export Exn.

(** ** The state-and-exception monad *)

Module Py.

(** What running a statement gives: a value, or a raised exception. *)
Inductive outcome (A : Type) : Type :=
| Ok (a : A)
| Raised (e : exn).
Arguments Ok {A} a.
Arguments Raised {A} e.

Definition is_ok {A} (o : outcome A) : bool :=
  match o with Ok _ => true | Raised _ => false end.

Definition M (S A : Type) : Type := S -> outcome A * S.

Definition ret {S A} (a : A) : M S A := fun s => (Ok a, s).

Definition raise {S A} (e : exn) : M S A := fun s => (Raised e, s).

Definition bind {S A B} (m : M S A) (k : A -> M S B) : M S B :=
  fun s =>
    match m s with
    | (Ok a, s') => k a s'
    | (Raised e, s') => (Raised e, s')
    end.

(** [try: body except <classes matched by handles> as e: handler e].
    The state reached when the exception was raised is the one the
    handler starts from. *)
Definition try_except {S A} (body : M S A) (handles : exn -> bool)
    (handler : exn -> M S A) : M S A :=
  fun s =>
    match body s with
    | (Ok a, s') => (Ok a, s')
    | (Raised e, s') => if handles e then handler e s' else (Raised e, s')
    end.

(** [except Exception] catches every exception of the model. *)
Definition any_Exception (_ : exn) : bool := true.

Definition get {S} : M S S := fun s => (Ok s, s).
Definition gets {S A} (f : S -> A) : M S A := fun s => (Ok (f s), s).
Definition modify {S} (f : S -> S) : M S unit := fun s => (Ok tt, f s).

(** An outcome computed outside the state (a built-in that may raise). *)
Definition lift {S A} (o : outcome A) : M S A := fun s => (o, s).

(** [for x in xs: body x]. *)
Fixpoint for_each {S A} (xs : list A) (body : A -> M S unit) : M S unit :=
  match xs with
  | [] => ret tt
  | x :: xs' => bind (body x) (fun _ => for_each xs' body)
  end.

End Py.
Export Py.

Declare Scope py_scope.
Delimit Scope py_scope with py.
Notation "x <- m ;; k" := (bind m (fun x => k))
  (at level 100, m at next level, right associativity) : py_scope.
Notation "m ;; k" := (bind m (fun _ => k))
  (at level 100, right associativity) : py_scope.

(** ** Python's built-ins on text *)

Module Text.

Definition chars (s : string) : list ascii := list_ascii_of_string s.
Definition text (cs : list ascii) : string := string_of_list_ascii cs.

(** The characters [int()] and [float()] skip at both ends of an ASCII
    string: tab, line feed, vertical tab, form feed, carriage return and
    space. *)
Definition is_c_space (c : ascii) : bool :=
  let n := nat_of_ascii c in
  ((9 <=? n)%nat && (n <=? 13)%nat) || (n =? 32)%nat.

(** The ASCII characters [str.strip()] removes: those of [str.isspace],
    which adds the four separators 28..31. *)
Definition is_str_space (c : ascii) : bool :=
  let n := nat_of_ascii c in
  is_c_space c || ((28 <=? n)%nat && (n <=? 31)%nat).

Definition is_digit (c : ascii) : bool :=
  let n := nat_of_ascii c in (48 <=? n)%nat && (n <=? 57)%nat.

Definition digit_value (c : ascii) : Z := Z.of_nat (nat_of_ascii c - 48).

Definition lower (c : ascii) : ascii :=
  let n := nat_of_ascii c in
  if (65 <=? n)%nat && (n <=? 90)%nat then ascii_of_nat (n + 32) else c.

Definition upper_char (c : ascii) : ascii :=
  let n := nat_of_ascii c in
  if (97 <=? n)%nat && (n <=? 122)%nat then ascii_of_nat (n - 32) else c.

(** [s.upper()] on ASCII text. *)
Fixpoint upper (s : string) : string :=
  match s with
  | EmptyString => EmptyString
  | String c s' => String (upper_char c) (upper s')
  end.

Fixpoint drop_while (p : ascii -> bool) (cs : list ascii) : list ascii :=
  match cs with
  | c :: cs' => if p c then drop_while p cs' else cs
  | [] => []
  end.

Definition strip_with (p : ascii -> bool) (cs : list ascii) : list ascii :=
  rev (drop_while p (rev (drop_while p cs))).

(** [s.strip()] *)
Definition strip (s : string) : string := text (strip_with is_str_space (chars s)).

(** [s.split(sep)] for a one-character separator: never an empty list. *)
Fixpoint split (sep : ascii) (s : string) : list string :=
  match s with
  | EmptyString => [EmptyString]
  | String c s' =>
      if Ascii.eqb c sep then EmptyString :: split sep s'
      else match split sep s' with
           | w :: ws => String c w :: ws
           | [] => [String c EmptyString]
           end
  end.

(** [s.startswith(p)] *)
Definition startswith (s p : string) : bool := String.prefix p s.

(** [xs[i]] for [i >= 0]: [IndexError] past the end. *)
Definition index {A} (xs : list A) (i : nat) : outcome A :=
  match nth_error xs i with
  | Some x => Ok x
  | None => Raised (OtherError "IndexError" "list index out of range")
  end.

(** Digits that follow a digit already read: [(["_"] digit)*]. *)
Fixpoint more_digits (cs : list ascii) : list ascii * list ascii :=
  match cs with
  | c :: cs' =>
      if is_digit c then
        let (ds, rest) := more_digits cs' in (c :: ds, rest)
      else if Ascii.eqb c "_" then
        match cs' with
        | d :: cs'' =>
            if is_digit d then
              let (ds, rest) := more_digits cs'' in (d :: ds, rest)
            else ([], cs)
        | [] => ([], cs)
        end
      else ([], cs)
  | [] => ([], [])
  end.

(** [digitpart ::= digit (["_"] digit)*]: the digits read and what is left. *)
Definition digitpart (cs : list ascii) : option (list ascii * list ascii) :=
  match cs with
  | c :: cs' =>
      if is_digit c then
        let (ds, rest) := more_digits cs' in Some (c :: ds, rest)
      else None
  | [] => None
  end.

Definition digits_value (ds : list ascii) : Z :=
  fold_left (fun acc d => 10 * acc + digit_value d)%Z ds 0%Z.

(** An optional sign: [true] for minus. *)
Definition sign (cs : list ascii) : bool * list ascii :=
  match cs with
  | c :: cs' =>
      if Ascii.eqb c "+" then (false, cs')
      else if Ascii.eqb c "-" then (true, cs')
      else (false, cs)
  | [] => (false, [])
  end.

Definition signed (neg : bool) (z : Z) : Z := if neg then (- z)%Z else z.

(** [int(s)] for a string, base 10.  [ValueError] unless the text is
    an optionally signed [digitpart] between optional blanks.  (The
    interpreter's cap on the number of digits is not modelled.) *)
Definition py_int (s : string) : outcome Z :=
  let (neg, cs) := sign (strip_with is_c_space (chars s)) in
  match digitpart cs with
  | Some (ds, []) => Ok (signed neg (digits_value ds))
  | _ => Raised (ValueError "invalid literal for int() with base 10")
  end.

(** A Python float as parsed from a literal: a number (kept exact, as a
    reduced fraction; rounding to binary64 is not modelled), an
    infinity, or a NaN. *)
Inductive pyfloat : Type :=
| Finite (q : Q)
| Infinite (negative : bool)
| NaN.

(** [number ::= [digitpart] "." digitpart | digitpart ["."]]: the
    digits before the point, those after it, and what is left. *)
Definition number (cs : list ascii)
    : option (list ascii * list ascii * list ascii) :=
  match digitpart cs with
  | Some (ip, c :: rest) =>
      if Ascii.eqb c "." then
        match digitpart rest with
        | Some (fp, rest') => Some (ip, fp, rest')
        | None => Some (ip, [], rest)
        end
      else Some (ip, [], c :: rest)
  | Some (ip, []) => Some (ip, [], [])
  | None =>
      match cs with
      | c :: rest =>
          if Ascii.eqb c "." then
            match digitpart rest with
            | Some (fp, rest') => Some ([], fp, rest')
            | None => None
            end
          else None
      | [] => None
      end
  end.

(** [[exponent]] up to the end of the text:
    [exponent ::= ("e" | "E") [sign] digitpart]. *)
Definition exponent (cs : list ascii) : option Z :=
  match cs with
  | [] => Some 0%Z
  | c :: cs' =>
      if Ascii.eqb (lower c) "e" then
        let (neg, cs'') := sign cs' in
        match digitpart cs'' with
        | Some (ds, []) => Some (signed neg (digits_value ds))
        | _ => None
        end
      else None
  end.

(** [m * 10^e] as a reduced fraction. *)
Definition decimal (m e : Z) : Q :=
  Qred (if (0 <=? e)%Z then inject_Z (m * 10 ^ e)
        else Qmake m (Z.to_pos (10 ^ (- e)))).

(** [float(s)] for a string.  [ValueError] unless the text, between
    optional blanks, is an optionally signed decimal number with an
    optional exponent, or [inf], [infinity] or [nan] in any case. *)
Definition py_float (s : string) : outcome pyfloat :=
  let (neg, cs) := sign (strip_with is_c_space (chars s)) in
  let word := text (map lower cs) in
  if String.eqb word "inf" || String.eqb word "infinity" then Ok (Infinite neg)
  else if String.eqb word "nan" then Ok NaN
  else
    match number cs with
    | Some (ip, fp, rest) =>
        match exponent rest with
        | Some e =>
            Ok (Finite (decimal (signed neg (digits_value (ip ++ fp)))
                                (e - Z.of_nat (length fp))))
        | None => Raised (ValueError "could not convert string to float")
        end
    | None => Raised (ValueError "could not convert string to float")
    end.

End Text.

(** ** Mission files *)

Module Mission.
Import Text.

(** dronekit's [Command(target_system, target_component, seq, frame,
    command, current, autocontinue, param1..param4, x, y, z)]. *)
Record Command : Type := {
  target_system : Z;
  target_component : Z;
  seq : Z;
  frame : Z;
  command : Z;
  current : Z;
  autocontinue : Z;
  param1 : pyfloat;
  param2 : pyfloat;
  param3 : pyfloat;
  param4 : pyfloat;
  x : pyfloat;
  y : pyfloat;
  z : pyfloat
}.

Definition tab : ascii := ascii_of_nat 9.

Definition header : string := "QGC WPL 110".

Local Open Scope py_scope.

(** The body of the [else] branch of the loop: one data row, appended
    to [missionlist] (the state of the loop). *)
Definition read_row (line : string) : M (list Command) unit :=
  let linearray := split tab line in
  a1 <- lift (index linearray 1) ;; ln_currentwp <- lift (py_int a1) ;;
  a2 <- lift (index linearray 2) ;; ln_frame <- lift (py_int a2) ;;
  a3 <- lift (index linearray 3) ;; ln_command <- lift (py_int a3) ;;
  a4 <- lift (index linearray 4) ;; ln_param1 <- lift (py_float a4) ;;
  a5 <- lift (index linearray 5) ;; ln_param2 <- lift (py_float a5) ;;
  a6 <- lift (index linearray 6) ;; ln_param3 <- lift (py_float a6) ;;
  a7 <- lift (index linearray 7) ;; ln_param4 <- lift (py_float a7) ;;
  a8 <- lift (index linearray 8) ;; ln_param5 <- lift (py_float a8) ;;
  a9 <- lift (index linearray 9) ;; ln_param6 <- lift (py_float a9) ;;
  a10 <- lift (index linearray 10) ;; ln_param7 <- lift (py_float a10) ;;
  a11 <- lift (index linearray 11) ;; ln_autocontinue <- lift (py_int (strip a11)) ;;
  let cmd :=
    {| target_system := 0; target_component := 0; seq := 0;
       frame := ln_frame; command := ln_command; current := ln_currentwp;
       autocontinue := ln_autocontinue;
       param1 := ln_param1; param2 := ln_param2; param3 := ln_param3;
       param4 := ln_param4; x := ln_param5; y := ln_param6; z := ln_param7 |} in
  modify (fun missionlist => missionlist ++ [cmd]).

(** The body of [for i, line in enumerate(f)]. *)
Definition read_line (il : nat * string) : M (list Command) unit :=
  let (i, line) := il in
  if Nat.eqb i 0 then
    if negb (startswith line header)
    then raise (PyException "File is not supported WP version")
    else ret tt
  else read_row line.

Definition enumerate {A} (xs : list A) : list (nat * A) :=
  combine (List.seq 0 (length xs)) xs.

(** [readmission(filename)], given the lines of the opened file (each
    with its line end, as iterating over the file yields them).  The
    list is returned only when the loop completes: a raised exception
    leaves the caller with no list at all. *)
Definition readmission (lines : list string) : outcome (list Command) :=
  match for_each (enumerate lines) read_line [] with
  | (Ok _, missionlist) => Ok missionlist
  | (Raised e, _) => Raised e
  end.

End Mission.

(** ** The vehicle link *)

Module Link.

(** A value a caller hands to the parameter mapping: text as it came
    with the request, or a float. *)
Inductive pyval : Type :=
| VStr (s : string)
| VFloat (f : Text.pyfloat).

Record LocationGlobalRelative : Type := { lat : R; lon : R }.
Record Attitude : Type := { yaw : R }.
Record Battery : Type := { voltage : R }.
Record GPSInfo : Type := { eph : Z; epv : Z; satellites_visible : Z }.
Record VehicleMode : Type := { name : string }.

(** The dronekit [Vehicle] as the handler sees it.  Reading an
    attribute gives a value or raises; the link does not change while
    one method runs.  [parameters] is the mapping behind
    [vehicle.parameters[key]]; [arm_raises] is what
    [vehicle.arm(wait=True, timeout=...)] does: it returns ([None]) or
    raises ([dronekit_TimeoutError], below, when the vehicle has not
    armed in time).  [parameter_echo name f] is what the write of the
    float [f] under the (upper-cased) name meets on the way to the
    vehicle: packing [f] in single precision raises; or the vehicle
    reports the value it now holds for the name ([Some], which the
    mapping then holds); or it reports nothing until the retries are
    over ([None]: the write returns all the same, and nothing is
    stored). *)
Record Vehicle : Type := {
  location_global_relative_frame : outcome LocationGlobalRelative;
  attitude : outcome Attitude;
  battery : outcome Battery;
  groundspeed : outcome R;
  gps_0 : outcome GPSInfo;
  mode : outcome VehicleMode;
  armed : outcome bool;
  is_armable : outcome bool;
  system_status_state : outcome string;
  parameters : gmap string pyval;
  arm_raises : option exn;
  parameter_echo : string -> Text.pyfloat -> outcome (option Text.pyfloat)
}.

Definition set_parameters (p : gmap string pyval) (v : Vehicle) : Vehicle :=
  {| location_global_relative_frame := location_global_relative_frame v;
     attitude := attitude v; battery := battery v;
     groundspeed := groundspeed v; gps_0 := gps_0 v; mode := mode v;
     armed := armed v; is_armable := is_armable v;
     system_status_state := system_status_state v;
     parameters := p; arm_raises := arm_raises v;
     parameter_echo := parameter_echo v |}.

Definition set_armed (a : outcome bool) (v : Vehicle) : Vehicle :=
  {| location_global_relative_frame := location_global_relative_frame v;
     attitude := attitude v; battery := battery v;
     groundspeed := groundspeed v; gps_0 := gps_0 v; mode := mode v;
     armed := a; is_armable := is_armable v;
     system_status_state := system_status_state v;
     parameters := parameters v; arm_raises := arm_raises v;
     parameter_echo := parameter_echo v |}.

(** dronekit's own [TimeoutError], a subclass of its [APIException]
    and not of Python's built-in [TimeoutError]: what
    [arm(wait=True, timeout=...)] raises once the time is over. *)
Definition dronekit_TimeoutError (m : string) : exn :=
  OtherError "dronekit.TimeoutError" m.

(** What packing a text as a single-precision float raises. *)
Definition struct_error : exn :=
  OtherError "struct.error" "required argument is not a float".

(** [vehicle.parameters[key] = value], as dronekit's
    [Parameters.__setitem__] does it once the parameters are loaded
    (which [wait_for_param_load] sees to): the name is upper-cased; the
    value is packed as a single-precision float, which raises on a
    text; a float is sent to the vehicle, and the mapping holds what
    the vehicle reports back, if it reports anything. *)
Definition parameters_setitem (key : string) (value : pyval) (v : Vehicle)
    : outcome Vehicle :=
  match value with
  | VStr _ => Raised struct_error
  | VFloat f =>
      match parameter_echo v (Text.upper key) f with
      | Raised e => Raised e
      | Ok None => Ok v
      | Ok (Some reported) =>
          Ok (set_parameters (<[Text.upper key := VFloat reported]> (parameters v)) v)
      end
  end.

(** One access to the link, as recorded in the world's log. *)
Inductive access : Type :=
| Read (attribute : string)
| ParamGet (key : string)
| ParamSet (key : string) (value : pyval)
| CallArm (wait : bool) (timeout : Z).

Definition is_read (a : access) : bool :=
  match a with Read _ | ParamGet _ => true | _ => false end.

Definition is_arm_call (a : access) : bool :=
  match a with CallArm _ _ => true | _ => false end.

End Link.

(** ** The target provider *)

Module Interop.

Record Drop : Type := { latitude : R; longitude : R }.

(** What [interop.get_data("ugv")] returns: a dict whose ["result"]
    entry, when there is one, is a dict holding the drop position under
    ["drop"]. *)
Record Reply : Type := { result : option Drop }.

(** The values [self.droppos] takes after the fetch: the reply itself
    (line 155), then its ["result"] entry (line 156). *)
Inductive droppos_value : Type :=
| WholeReply (r : Reply)
| ResultEntry (d : Drop).

Record GroundStation : Type := {
  interop_get_data : string -> outcome Reply
}.

End Interop.

(** ** The handler *)

Module UGV.
Import Interop.

Local Open Scope R_scope.

Definition BAUDRATE : Z := 57600.
Definition mph : R := 2.23694.
Definition ft : R := 3.28084.
Definition wait_for : list string := ["gps_0"; "armed"; "mode"; "attitude"].

(** [self.mode] holds a [VehicleMode] object ([__init__], [update],
    [set_flight_mode]) or the mode's name ([get_flight_mode] stores
    the string itself). *)
Inductive mode_value : Type :=
| ModeObject (m : Link.VehicleMode)
| ModeName (s : string).

(** The attributes of a [UGVHandler] object; [None] is Python's
    [None].  The vehicle link is reached only through [vehicle], so the
    link's state is kept there. *)
Record UGVHandler : Type := {
  gs : GroundStation;
  port : string;
  serial : bool;
  vehicle : option Link.Vehicle;
  yaw : option R;
  ground_speed : option R;
  droppos : option droppos_value;
  dest : option (droppos_value * R);
  dist_to_dest : option R;
  battery : option R;
  lat : option R;
  lon : option R;
  connection : option (list Z);
  mode : mode_value;
  gps : option Link.GPSInfo;
  commands : list Mission.Command;
  armed : bool;
  status : string
}.

(** [__init__(gs, config)], with [port] and [serial] the two entries
    read from [config["ugv"]["telemetry"]]. *)
Definition init (gs0 : GroundStation) (port0 : string) (serial0 : bool)
    : UGVHandler :=
  {| gs := gs0; port := port0; serial := serial0; vehicle := None;
     yaw := None; ground_speed := None; droppos := None; dest := None;
     dist_to_dest := None; battery := None; lat := None; lon := None;
     connection := None; mode := ModeObject {| Link.name := "MANUAL" |};
     gps := None; commands := []; armed := false; status := "BOOT" |}.

(** Attribute assignments [self.<attribute> = value]. *)
Definition set_vehicle (a : option Link.Vehicle) (h : UGVHandler) : UGVHandler :=
  {| gs := gs h; port := port h; serial := serial h; vehicle := a;
     yaw := yaw h; ground_speed := ground_speed h; droppos := droppos h;
     dest := dest h; dist_to_dest := dist_to_dest h; battery := battery h;
     lat := lat h; lon := lon h; connection := connection h; mode := mode h;
     gps := gps h; commands := commands h; armed := armed h; status := status h |}.

Definition set_yaw (a : option R) (h : UGVHandler) : UGVHandler :=
  {| gs := gs h; port := port h; serial := serial h; vehicle := vehicle h;
     yaw := a; ground_speed := ground_speed h; droppos := droppos h;
     dest := dest h; dist_to_dest := dist_to_dest h; battery := battery h;
     lat := lat h; lon := lon h; connection := connection h; mode := mode h;
     gps := gps h; commands := commands h; armed := armed h; status := status h |}.

Definition set_ground_speed (a : option R) (h : UGVHandler) : UGVHandler :=
  {| gs := gs h; port := port h; serial := serial h; vehicle := vehicle h;
     yaw := yaw h; ground_speed := a; droppos := droppos h;
     dest := dest h; dist_to_dest := dist_to_dest h; battery := battery h;
     lat := lat h; lon := lon h; connection := connection h; mode := mode h;
     gps := gps h; commands := commands h; armed := armed h; status := status h |}.

Definition set_droppos (a : option droppos_value) (h : UGVHandler) : UGVHandler :=
  {| gs := gs h; port := port h; serial := serial h; vehicle := vehicle h;
     yaw := yaw h; ground_speed := ground_speed h; droppos := a;
     dest := dest h; dist_to_dest := dist_to_dest h; battery := battery h;
     lat := lat h; lon := lon h; connection := connection h; mode := mode h;
     gps := gps h; commands := commands h; armed := armed h; status := status h |}.

Definition set_dest (a : option (droppos_value * R)) (h : UGVHandler) : UGVHandler :=
  {| gs := gs h; port := port h; serial := serial h; vehicle := vehicle h;
     yaw := yaw h; ground_speed := ground_speed h; droppos := droppos h;
     dest := a; dist_to_dest := dist_to_dest h; battery := battery h;
     lat := lat h; lon := lon h; connection := connection h; mode := mode h;
     gps := gps h; commands := commands h; armed := armed h; status := status h |}.

Definition set_dist_to_dest (a : option R) (h : UGVHandler) : UGVHandler :=
  {| gs := gs h; port := port h; serial := serial h; vehicle := vehicle h;
     yaw := yaw h; ground_speed := ground_speed h; droppos := droppos h;
     dest := dest h; dist_to_dest := a; battery := battery h;
     lat := lat h; lon := lon h; connection := connection h; mode := mode h;
     gps := gps h; commands := commands h; armed := armed h; status := status h |}.

Definition set_battery (a : option R) (h : UGVHandler) : UGVHandler :=
  {| gs := gs h; port := port h; serial := serial h; vehicle := vehicle h;
     yaw := yaw h; ground_speed := ground_speed h; droppos := droppos h;
     dest := dest h; dist_to_dest := dist_to_dest h; battery := a;
     lat := lat h; lon := lon h; connection := connection h; mode := mode h;
     gps := gps h; commands := commands h; armed := armed h; status := status h |}.

Definition set_lat (a : option R) (h : UGVHandler) : UGVHandler :=
  {| gs := gs h; port := port h; serial := serial h; vehicle := vehicle h;
     yaw := yaw h; ground_speed := ground_speed h; droppos := droppos h;
     dest := dest h; dist_to_dest := dist_to_dest h; battery := battery h;
     lat := a; lon := lon h; connection := connection h; mode := mode h;
     gps := gps h; commands := commands h; armed := armed h; status := status h |}.

Definition set_lon (a : option R) (h : UGVHandler) : UGVHandler :=
  {| gs := gs h; port := port h; serial := serial h; vehicle := vehicle h;
     yaw := yaw h; ground_speed := ground_speed h; droppos := droppos h;
     dest := dest h; dist_to_dest := dist_to_dest h; battery := battery h;
     lat := lat h; lon := a; connection := connection h; mode := mode h;
     gps := gps h; commands := commands h; armed := armed h; status := status h |}.

Definition set_connection (a : option (list Z)) (h : UGVHandler) : UGVHandler :=
  {| gs := gs h; port := port h; serial := serial h; vehicle := vehicle h;
     yaw := yaw h; ground_speed := ground_speed h; droppos := droppos h;
     dest := dest h; dist_to_dest := dist_to_dest h; battery := battery h;
     lat := lat h; lon := lon h; connection := a; mode := mode h;
     gps := gps h; commands := commands h; armed := armed h; status := status h |}.

Definition set_mode (a : mode_value) (h : UGVHandler) : UGVHandler :=
  {| gs := gs h; port := port h; serial := serial h; vehicle := vehicle h;
     yaw := yaw h; ground_speed := ground_speed h; droppos := droppos h;
     dest := dest h; dist_to_dest := dist_to_dest h; battery := battery h;
     lat := lat h; lon := lon h; connection := connection h; mode := a;
     gps := gps h; commands := commands h; armed := armed h; status := status h |}.

Definition set_gps (a : option Link.GPSInfo) (h : UGVHandler) : UGVHandler :=
  {| gs := gs h; port := port h; serial := serial h; vehicle := vehicle h;
     yaw := yaw h; ground_speed := ground_speed h; droppos := droppos h;
     dest := dest h; dist_to_dest := dist_to_dest h; battery := battery h;
     lat := lat h; lon := lon h; connection := connection h; mode := mode h;
     gps := a; commands := commands h; armed := armed h; status := status h |}.

Definition set_armed (a : bool) (h : UGVHandler) : UGVHandler :=
  {| gs := gs h; port := port h; serial := serial h; vehicle := vehicle h;
     yaw := yaw h; ground_speed := ground_speed h; droppos := droppos h;
     dest := dest h; dist_to_dest := dist_to_dest h; battery := battery h;
     lat := lat h; lon := lon h; connection := connection h; mode := mode h;
     gps := gps h; commands := commands h; armed := a; status := status h |}.

(** What a method runs in: the handler object, dronekit's [connect]
    (given the port, the [wait_ready] names and the baud rate when one
    is passed: a new link, or an exception), and the log of the
    accesses made so far to the vehicle link, latest first. *)
Record world : Type := {
  self : UGVHandler;
  dronekit_connect : string -> list string -> option Z -> outcome Link.Vehicle;
  link_log : list Link.access
}.

Definition on_self (f : UGVHandler -> UGVHandler) (w : world) : world :=
  {| self := f (self w); dronekit_connect := dronekit_connect w;
     link_log := link_log w |}.

Definition logged (a : Link.access) (w : world) : world :=
  {| self := self w; dronekit_connect := dronekit_connect w;
     link_log := a :: link_log w |}.

Definition AttributeError_on_None : exn :=
  OtherError "AttributeError" "'NoneType' object has no attribute".

(** [self.<attribute> = value] *)
Definition assign (f : UGVHandler -> UGVHandler) : M world unit :=
  modify (on_self f).

(** [self.<attribute>] *)
Definition attr {A} (f : UGVHandler -> A) : M world A :=
  gets (fun w => f (self w)).

(** [self.vehicle.<attribute>]: [AttributeError] while [self.vehicle]
    is [None]; otherwise an access to the link, which gives the value
    or raises. *)
Definition read {A} (attribute : string) (f : Link.Vehicle -> outcome A)
    : M world A :=
  fun w =>
    match vehicle (self w) with
    | None => (Raised AttributeError_on_None, w)
    | Some v => (f v, logged (Link.Read attribute) w)
    end.

(** [self.vehicle.parameters[key]]: the link looks the upper-cased
    name up. *)
Definition parameter_get (key : string) : M world Link.pyval :=
  fun w =>
    match vehicle (self w) with
    | None => (Raised AttributeError_on_None, w)
    | Some v =>
        (match Link.parameters v !! Text.upper key with
         | Some x => Ok x
         | None => Raised (OtherError "KeyError" ("'" ++ Text.upper key ++ "'"))
         end, logged (Link.ParamGet key) w)
    end.

(** [self.vehicle.parameters[key] = value]: the link is reached, and
    takes the value or raises. *)
Definition parameter_set (key : string) (value : Link.pyval) : M world unit :=
  fun w =>
    match vehicle (self w) with
    | None => (Raised AttributeError_on_None, w)
    | Some v =>
        match Link.parameters_setitem key value v with
        | Ok v' =>
            (Ok tt,
             logged (Link.ParamSet key value) (on_self (set_vehicle (Some v')) w))
        | Raised e => (Raised e, logged (Link.ParamSet key value) w)
        end
    end.

(** [self.vehicle.arm(wait=..., timeout=...)]: the call reaches the
    link; it raises what the link raises, and otherwise returns with
    the vehicle armed. *)
Definition vehicle_arm (wait : bool) (timeout : Z) : M world unit :=
  fun w =>
    match vehicle (self w) with
    | None => (Raised AttributeError_on_None, w)
    | Some v =>
        let w' := logged (Link.CallArm wait timeout) w in
        match Link.arm_raises v with
        | Some e => (Raised e, w')
        | None => (Ok tt, on_self (set_vehicle (Some (Link.set_armed (Ok true) v))) w')
        end
    end.

(** [self.gs.interop.get_data(key)] *)
Definition get_data (key : string) : M world Reply :=
  fun w => (interop_get_data (gs (self w)) key, w).

(** [connect(port, wait_ready=..., baud=...)] of dronekit. *)
Definition dronekit_connect_call (p : string) (wait_ready : list string)
    (baud : option Z) : M world Link.Vehicle :=
  fun w => (dronekit_connect w p wait_ready baud, w).

Local Open Scope py_scope.

(** Modelled from the spec: [utils.decorators.wait_for_param_load]
    blocks until the link's initial parameter set has finished loading
    and then services the request; the model takes the link with its
    parameters loaded, where the decorator runs the method at once.
    ([decorate_all_functions(log, ...)] only logs each call.) *)
Definition wait_for_param_load {A} (method : M world A) : M world A := method.

(** [try: body] followed by the [except] clauses in order: the first
    clause whose class matches handles the exception. *)
Fixpoint dispatch {A} (clauses : list ((exn -> bool) * (exn -> M world A)))
    (e : exn) : M world A :=
  match clauses with
  | [] => raise e
  | (matches, handler) :: rest =>
      if matches e then handler e else dispatch rest e
  end.

Definition try_excepts {A} (body : M world A)
    (clauses : list ((exn -> bool) * (exn -> M world A))) : M world A :=
  try_except body any_Exception (dispatch clauses).

(** Truth value of [self.droppos]: [None] is false, a dict is true
    (the replies of the target provider are non-empty dicts). *)
Definition truthy (d : option droppos_value) : bool :=
  match d with None => false | Some _ => true end.

(** [reply["result"]] *)
Definition subscript_result (r : Reply) : outcome Drop :=
  match result r with
  | Some d => Ok d
  | None => Raised (OtherError "KeyError" "'result'")
  end.

(** [self.droppos["drop"]]: present in the ["result"] entry only. *)
Definition subscript_drop (d : option droppos_value) : outcome Drop :=
  match d with
  | Some (ResultEntry dr) => Ok dr
  | Some (WholeReply _) => Raised (OtherError "KeyError" "'drop'")
  | None => Raised (OtherError "TypeError" "'NoneType' object is not subscriptable")
  end.

(** Lines 145-146: radians to degrees, then 360 added once to a
    negative angle. *)
Definition yaw_degrees (rpy_yaw : R) : R := rpy_yaw * 180 / PI.

Definition yaw_shift (y : R) : R := if Rlt_dec y 0 then 360 else 0.

(** Lines 157-162: the distance to the drop position, in feet. *)
Definition x_dist_ft (drop_latitude lat0 : R) : R :=
  let x_dist := drop_latitude - lat0 in
  x_dist * (cos (lat0 * PI / 180) * 69.172) * 5280.

Definition y_dist_ft (drop_longitude lon0 : R) : R :=
  let y_dist := drop_longitude - lon0 in
  y_dist * 69.172 * 5280.

Definition distance (drop : Drop) (lat0 lon0 : R) : R :=
  sqrt (x_dist_ft (latitude drop) lat0 ^ 2 + y_dist_ft (longitude drop) lon0 ^ 2).

(** The [try] block of [update]. *)
Definition update_body : M world unit :=
  loc <- read "location.global_relative_frame" Link.location_global_relative_frame ;;
  rpy <- read "attitude" Link.attitude ;;
  battery0 <- read "battery" Link.battery ;;
  assign (set_yaw (Some (yaw_degrees (Link.yaw rpy)))) ;;
  assign (set_yaw (Some (yaw_degrees (Link.yaw rpy)
                         + yaw_shift (yaw_degrees (Link.yaw rpy))))) ;;
  groundspeed <- read "groundspeed" Link.groundspeed ;;
  assign (set_ground_speed (Some (groundspeed * mph))) ;;
  assign (set_battery (Some (Link.voltage battery0))) ;;
  assign (set_lat (Some (Link.lat loc))) ;;
  assign (set_lon (Some (Link.lon loc))) ;;
  gps0 <- read "gps_0" Link.gps_0 ;;
  assign (set_gps (Some gps0)) ;;
  assign (set_connection
            (Some [Link.eph gps0; Link.epv gps0; Link.satellites_visible gps0])) ;;
  mode0 <- read "mode" Link.mode ;;
  assign (set_mode (ModeObject mode0)) ;;
  cached <- attr droppos ;;
  (if negb (truthy cached) then
     reply <- get_data "ugv" ;;
     assign (set_droppos (Some (WholeReply reply))) ;;
     entry <- lift (subscript_result reply) ;;
     assign (set_droppos (Some (ResultEntry entry)))
   else ret tt) ;;
  held <- attr droppos ;;
  drop <- lift (subscript_drop held) ;;
  let dist := distance drop (Link.lat loc) (Link.lon loc) in
  assign (set_dist_to_dest (Some dist)) ;;
  assign (set_dest (Some (ResultEntry drop, dist))) ;;
  mode1 <- read "mode" Link.mode ;;
  assign (set_mode (ModeObject mode1)) ;;
  armed0 <- read "armed" Link.armed ;;
  assign (set_armed armed0) ;;
  ret tt.

Definition as_GeneralError {A} (e : exn) : M world A :=
  raise (GeneralError (str e)).

(** [update(self)] *)
Definition update : M world unit :=
  try_except update_body any_Exception as_GeneralError.

(** [connect(self)] *)
Definition connect : M world unit :=
  try_except
    (serial0 <- attr serial ;;
     port0 <- attr port ;;
     (if serial0 then
        v <- dronekit_connect_call port0 wait_for (Some BAUDRATE) ;;
        assign (set_vehicle (Some v))
      else
        v <- dronekit_connect_call port0 wait_for None ;;
        assign (set_vehicle (Some v))) ;;
     update ;;
     ret tt)
    any_Exception as_GeneralError.

(** The dict under ["result"] in what [quick] returns. *)
Record quick_result : Type := {
  q_yaw : option R;
  q_lat : option R;
  q_lon : option R;
  q_ground_speed : option R;
  q_battery : option R;
  q_destination : option (droppos_value * R);
  q_connection : option (list Z)
}.

(** [quick(self)]; the one-entry dict [{"result": ...}] is given by its
    entry. *)
Definition quick : M world quick_result :=
  yaw0 <- attr yaw ;;
  lat0 <- attr lat ;;
  lon0 <- attr lon ;;
  ground_speed0 <- attr ground_speed ;;
  battery0 <- attr battery ;;
  dest0 <- attr dest ;;
  connection0 <- attr connection ;;
  ret {| q_yaw := yaw0; q_lat := lat0; q_lon := lon0;
         q_ground_speed := ground_speed0; q_battery := battery0;
         q_destination := dest0; q_connection := connection0 |}.

(** [get_armed(self)] *)
Definition get_armed : M world string :=
  try_except
    (is_armed <- read "armed" Link.armed ;;
     if is_armed : bool then ret "ARMED"
     else
       armable <- read "is_armable" Link.is_armable ;;
       if armable : bool then ret "DISARMED (ARMABLE)"
       else ret "DISARMED (NOT ARMABLE)")
    any_Exception as_GeneralError.

(** [self.mode.name] *)
Definition mode_name (m : mode_value) : outcome string :=
  match m with
  | ModeObject o => Ok (Link.name o)
  | ModeName _ => Raised (OtherError "AttributeError" "'str' object has no attribute 'name'")
  end.

(** The dict under ["result"] in what [stats] returns. *)
Record stats_result : Type := {
  s_quick : quick_result;
  s_mode : string;
  s_commands : list Mission.Command;
  s_armed : string;
  s_status : string
}.

(** [stats(self)]; the entries are evaluated in the order written, and
    [cmd.to_dict()] is given by the command itself. *)
Definition stats : M world stats_result :=
  quick0 <- quick ;;
  mode0 <- attr mode ;;
  name0 <- lift (mode_name mode0) ;;
  commands0 <- attr commands ;;
  armed0 <- get_armed ;;
  status0 <- read "system_status.state" Link.system_status_state ;;
  ret {| s_quick := quick0; s_mode := name0; s_commands := commands0;
         s_armed := armed0; s_status := status0 |}.

(** [float(value)] *)
Definition float (value : Link.pyval) : outcome Text.pyfloat :=
  match value with
  | Link.VStr s => Text.py_float s
  | Link.VFloat f => Ok f
  end.

(** [get_param(self, key)] *)
Definition get_param (key : string) : M world Link.pyval :=
  wait_for_param_load
    (try_except (parameter_get key) any_Exception as_GeneralError).

(** [set_param(self, key, value)]: [print(float(value))] only
    evaluates [float(value)]. *)
Definition set_param (key : string) (value : Link.pyval) : M world unit :=
  wait_for_param_load
    (try_except (_ <- lift (float value) ;; ret tt) is_ValueError
       (fun _ => raise (InvalidRequestError "Parameter Value cannot be converted to float")) ;;
     try_except (parameter_set key value) any_Exception as_GeneralError).



(** [arm(self)] *)
Definition arm : M world unit :=
  try_excepts
    (armable <- read "is_armable" Link.is_armable ;;
     (if negb armable
      then raise (InvalidStateError "Vehicle is not armable")
      else ret tt) ;;
     vehicle_arm true 15 ;;
     ret tt)
    [ (is_TimeoutError, fun _ => raise (TimeoutError "Vehicle arming timed out"));
      (is_InvalidStateError, fun e => raise (InvalidStateError (str e)));
      (any_Exception, as_GeneralError) ].

End UGV.

(** ** The distance formula as the specification words it *)

Module Spec.
Local Open Scope R_scope.

(** [dx_ft = (targetLon - lon) * cos(lat*pi/180) * 69.172 * 5280] *)
Definition dx_ft (targetLon lat lon : R) : R :=
  (targetLon - lon) * cos (lat * PI / 180) * 69.172 * 5280.

(** [dy_ft = (targetLat - lat) * 69.172 * 5280] *)
Definition dy_ft (targetLat lat : R) : R :=
  (targetLat - lat) * 69.172 * 5280.

(** [distance = sqrt(dx_ft^2 + dy_ft^2)] *)
Definition distance_to_target (targetLat targetLon lat lon : R) : R :=
  sqrt (dx_ft targetLon lat lon ^ 2 + dy_ft targetLat lat ^ 2).

End Spec.

(** ** What the methods are observed to do *)

Module Observed.
Import UGV.

(** The snapshot attributes [quick] reports. *)
Definition snapshot_of (h : UGVHandler) : quick_result :=
  {| q_yaw := yaw h; q_lat := lat h; q_lon := lon h;
     q_ground_speed := ground_speed h; q_battery := battery h;
     q_destination := dest h; q_connection := connection h |}.

(** What dronekit's [connect] answers to the call [connect] makes:
    the baud rate is passed for a serial port only. *)
Definition link_offered (w : world) : outcome Link.Vehicle :=
  dronekit_connect w (port (self w)) wait_for
    (if serial (self w) then Some BAUDRATE else None).

(** What [arm] returns once the arm request was issued, from what the
    link's [arm] raised, if anything. *)
Definition arm_outcome (raised : option exn) : outcome unit :=
  match raised with
  | None => Ok tt
  | Some e =>
      if is_TimeoutError e then Raised (TimeoutError "Vehicle arming timed out")
      else if is_InvalidStateError e then Raised (InvalidStateError (str e))
      else Raised (GeneralError (str e))
  end.


(** The accesses the writes of those items leave in the log, latest
    first, the link having taken them or not. *)
Definition writes_logged (items : list (string * Link.pyval)) : list Link.access :=
  rev (map (fun kv => Link.ParamSet (fst kv) (snd kv)) items).

(** The world [w] once those items were handed to the link, which is
    [v'] now, and nothing else was done. *)
Definition after_writes (items : list (string * Link.pyval)) (w : world)
    (v' : Link.Vehicle) : world :=
  {| self := set_vehicle (Some v') (self w);
     dronekit_connect := dronekit_connect w;
     link_log := writes_logged items ++ link_log w |}.

End Observed.

(** ** Lines 145-146 in floating point *)

(** The yaw of lines 145-146 with every operation rounded: [rnd] is the
    rounding of one operation's exact result to a float, [pi] the
    float [math.pi].  [UGV.yaw_degrees] and [UGV.yaw_shift] are these
    with nothing rounded. *)
Module Rounded.
Local Open Scope R_scope.


Definition exact (x : R) : R := x.

Section Yaw.
Variable rnd : R -> R.
Variable pi : R.

(** [rpy.yaw * 180 / math.pi] *)
Definition yaw_degrees (rpy_yaw : R) : R := rnd (rnd (rpy_yaw * 180) / pi).

(** [360 if self.yaw < 0 else 0] *)
Definition yaw_shift (y : R) : R := if Rlt_dec y 0 then 360 else 0.

(** [self.yaw] after line 146. *)
Definition stored_yaw (rpy_yaw : R) : R :=
  rnd (yaw_degrees rpy_yaw + yaw_shift (yaw_degrees rpy_yaw)).

End Yaw.

End Rounded.

(** The same two lines on binary64 floats, as the interpreter runs
    them. *)
Module Binary64.
Import Floats.
Local Open Scope float_scope.

(** [math.pi] *)
Definition pi : float := 0x1.921fb54442d18p+1.

Definition is_negative (x : float) : bool := x <? 0.

Definition yaw_degrees (rpy_yaw : float) : float := rpy_yaw * 180 / pi.

Definition stored_yaw (rpy_yaw : float) : float :=
  let y := yaw_degrees rpy_yaw in
  y + (if y <? 0 then 360 else 0).

(** [- 2 ** -60], and 360. *)
Definition tiny_negative_yaw : float := -0x1p-60.

Definition full_turn : float := 360.

End Binary64.

(** ** Concrete vehicles, providers and files *)

Module Examples.
Import Interop UGV.
Local Open Scope R_scope.

(** A target provider that cannot be reached. *)
Definition unreachable : GroundStation :=
  {| interop_get_data := fun _ => Raised (OtherError "ConnectionError" "interop unreachable") |}.

(** A target provider that answers with a drop position. *)
Definition provider (la lo : R) : GroundStation :=
  {| interop_get_data := fun _ =>
       Ok {| result := Some {| latitude := la; longitude := lo |} |} |}.

(** A link in good order: position [(la, lo)], yaw [rad] radians; the
    vehicle reports every parameter back as it was sent (as it does
    for a value that single precision holds exactly). *)
Definition link (la lo rad : R) (is_armed armable : bool) (arm : option exn)
    : Link.Vehicle :=
  {| Link.location_global_relative_frame := Ok {| Link.lat := la; Link.lon := lo |};
     Link.attitude := Ok {| Link.yaw := rad |};
     Link.battery := Ok {| Link.voltage := 12 |};
     Link.groundspeed := Ok 0;
     Link.gps_0 := Ok {| Link.eph := 120; Link.epv := 180; Link.satellites_visible := 9 |};
     Link.mode := Ok {| Link.name := "MANUAL" |};
     Link.armed := Ok is_armed;
     Link.is_armable := Ok armable;
     Link.system_status_state := Ok "STANDBY";
     Link.parameters := ∅;
     Link.arm_raises := arm;
     Link.parameter_echo := fun _ f => Ok (Some f) |}.

Definition lost : exn := OtherError "APIException" "link lost".

(** A link that answers the connection and then no read. *)
Definition silent_link : Link.Vehicle :=
  {| Link.location_global_relative_frame := Raised lost;
     Link.attitude := Raised lost;
     Link.battery := Raised lost;
     Link.groundspeed := Raised lost;
     Link.gps_0 := Raised lost;
     Link.mode := Raised lost;
     Link.armed := Raised lost;
     Link.is_armable := Raised lost;
     Link.system_status_state := Raised lost;
     Link.parameters := ∅;
     Link.arm_raises := Some lost;
     Link.parameter_echo := fun _ _ => Ok None |}.


Definition no_connection : string -> list string -> option Z -> outcome Link.Vehicle :=
  fun _ _ _ => Raised (OtherError "APIException" "No heartbeat").

Definition connects_to (v : Link.Vehicle)
    : string -> list string -> option Z -> outcome Link.Vehicle :=
  fun _ _ _ => Ok v.

(** A handler just constructed. *)
Definition fresh (g : GroundStation)
    (dk : string -> list string -> option Z -> outcome Link.Vehicle) : world :=
  {| self := init g "/dev/ttyUSB0" true; dronekit_connect := dk; link_log := [] |}.

(** A handler holding the link [v]. *)
Definition connected (g : GroundStation) (v : Link.Vehicle) : world :=
  on_self (set_vehicle (Some v)) (fresh g no_connection).

(** The vehicle at 60 N, 0 E; the drop position one degree east of it,
    already cached. *)
Definition at_60N : world :=
  on_self (set_droppos (Some (ResultEntry {| latitude := 60; longitude := 1 |})))
    (connected (provider 60 1) (link 60 0 0 false true None)).




(** A link reporting a yaw of minus ten degrees. *)
Definition yaw_minus_10 : world :=
  connected (provider 0 0) (link 0 0 (- 10 * PI / 180) false true None).

(** An armed vehicle, the handler's cached flag still false. *)
Definition armed_on_link : world :=
  connected (provider 0 0) (link 0 0 0 true true None).

Definition not_armable : world :=
  connected (provider 0 0) (link 0 0 0 false false None).

(** An armable vehicle that has not armed when the time is over. *)
Definition arming_times_out : world :=
  connected (provider 0 0)
    (link 0 0 0 false true (Some (Link.dronekit_TimeoutError "failed to arm vehicle"))).

Definition parked : world :=
  connected (provider 0 0) (link 0 0 0 false true None).

Definition nl : string := String (ascii_of_nat 10) EmptyString.

(** One line of a waypoint file: the fields, tab-separated, then the
    line end. *)
Definition row (fields : list string) : string :=
  (String.concat (String Mission.tab EmptyString) fields ++ nl)%string.

(** A file whose first line begins with the header and goes on. *)
Definition longer_header_file : list string :=
  [ ("QGC WPL 110 draft" ++ nl)%string;
    row ["0"; "1"; "3"; "16"; "0"; "0"; "0"; "0"; "47.5"; "-122.3"; "10"; "1"] ].

Definition bad_header_file : list string :=
  [ ("BAD HEADER" ++ nl)%string;
    row ["0"; "1"; "3"; "16"; "0"; "0"; "0"; "0"; "47.5"; "-122.3"; "10"; "1"] ].

Definition waypoint : Mission.Command :=
  {| Mission.target_system := 0; Mission.target_component := 0; Mission.seq := 0;
     Mission.frame := 3; Mission.command := 16; Mission.current := 1;
     Mission.autocontinue := 1;
     Mission.param1 := Text.Finite 0; Mission.param2 := Text.Finite 0;
     Mission.param3 := Text.Finite 0; Mission.param4 := Text.Finite 0;
     Mission.x := Text.Finite (95 # 2); Mission.y := Text.Finite (- 1223 # 10);
     Mission.z := Text.Finite 10 |}.



End Examples.

(** ** Further methods of the handler *)

Module Methods.
Import Interop UGV.
Local Open Scope py_scope.

(** [get_flight_mode(self)]: the name of the link's mode is stored in
    [self.mode] and returned. *)
Definition get_flight_mode : M world string :=
  try_except
    (mode0 <- read "mode" Link.mode ;;
     assign (set_mode (ModeName (Link.name mode0))) ;;
     ret (Link.name mode0))
    any_Exception as_GeneralError.

(** [self.vehicle.parameters.items()] *)
Definition parameter_items : M world (gmap string Link.pyval) :=
  fun w =>
    match vehicle (self w) with
    | None => (Raised AttributeError_on_None, w)
    | Some v => (Ok (Link.parameters v), logged (Link.Read "parameters") w)
    end.

(** [get_params(self)]: a dict built from the items of the link's
    mapping, that is, the same mapping. *)
Definition get_params : M world (gmap string Link.pyval) :=
  wait_for_param_load
    (try_except parameter_items any_Exception as_GeneralError).

(** [dict[key]] on what [get_params] returned. *)
Definition subscript (d : gmap string Link.pyval) (key : string)
    : outcome Link.pyval :=
  match d !! key with
  | Some x => Ok x
  | None => Raised (OtherError "KeyError" key)
  end.

End Methods.

(** ** Observations for the further properties *)

Module Cases.
Import Interop UGV Methods.
Local Open Scope R_scope.

(** A data row that [read_row] turns into the command [c]. *)
Definition row_gives (line : string) (c : Mission.Command) : Prop :=
  Mission.read_row line [] = (Ok tt, [c]).

(** A data row on which [read_row] raises [e]. *)
Definition row_raises (line : string) (e : exn) : Prop :=
  Mission.read_row line [] = (Raised e, []).

(** The fields [readmission] fills with zero in every command. *)
Definition unaddressed (c : Mission.Command) : Prop :=
  Mission.target_system c = 0%Z /\ Mission.target_component c = 0%Z /\
  Mission.seq c = 0%Z.

(** A text without a tab in it. *)
Definition tab_free (s : string) : Prop :=
  Forall (fun c => c <> Mission.tab) (list_ascii_of_string s).

(** What [get_armed] returns, and the reads it makes (latest first),
    from what the link answers for [armed] and [is_armable]. *)
Definition armed_report (v : Link.Vehicle) : outcome string * list Link.access :=
  match Link.armed v with
  | Ok true => (Ok "ARMED", [Link.Read "armed"])
  | Ok false =>
      match Link.is_armable v with
      | Ok true => (Ok "DISARMED (ARMABLE)", [Link.Read "is_armable"; Link.Read "armed"])
      | Ok false => (Ok "DISARMED (NOT ARMABLE)", [Link.Read "is_armable"; Link.Read "armed"])
      | Raised e => (Raised (GeneralError (str e)), [Link.Read "is_armable"; Link.Read "armed"])
      end
  | Raised e => (Raised (GeneralError (str e)), [Link.Read "armed"])
  end.

(** The world [w] with [reads] added to the log. *)
Definition with_reads (reads : list Link.access) (w : world) : world :=
  {| self := self w; dronekit_connect := dronekit_connect w;
     link_log := reads ++ link_log w |}.

(** What every method that starts by reading the link raises on a
    handler whose [vehicle] is [None]. *)
Definition not_connected_error : exn :=
  GeneralError (str AttributeError_on_None).

(** The handler [h] with another ground station behind it. *)
Definition with_provider (g : GroundStation) (h : UGVHandler) : UGVHandler :=
  {| gs := g; port := port h; serial := serial h; vehicle := vehicle h;
     yaw := yaw h; ground_speed := ground_speed h; droppos := droppos h;
     dest := dest h; dist_to_dest := dist_to_dest h; battery := battery h;
     lat := lat h; lon := lon h; connection := connection h; mode := mode h;
     gps := gps h; commands := commands h; armed := armed h; status := status h |}.

(** What [connect] makes of the refresh it ends with. *)
Definition rewrapped (r : outcome unit * world) : outcome unit * world :=
  match r with
  | (Ok _, w') => (Ok tt, w')
  | (Raised e, w') => (Raised (GeneralError (str e)), w')
  end.

(** A target provider whose reply has no ["result"] entry. *)
Definition replies_without_result : GroundStation :=
  {| interop_get_data := fun _ => Ok {| result := None |} |}.

(** A link at 47.5 N, 122.3 W, armed, with a parameter set. *)
Definition cruising_link : Link.Vehicle :=
  {| Link.location_global_relative_frame :=
       Ok {| Link.lat := 47.5; Link.lon := - 122.3 |};
     Link.attitude := Ok {| Link.yaw := 0 |};
     Link.battery := Ok {| Link.voltage := 12.6 |};
     Link.groundspeed := Ok 2;
     Link.gps_0 := Ok {| Link.eph := 120; Link.epv := 180; Link.satellites_visible := 9 |};
     Link.mode := Ok {| Link.name := "AUTO" |};
     Link.armed := Ok true;
     Link.is_armable := Ok true;
     Link.system_status_state := Ok "ACTIVE";
     Link.parameters := <["WP_SPEED" := Link.VFloat (Text.Finite 2)]> ∅;
     Link.arm_raises := None;
     Link.parameter_echo := fun _ f => Ok (Some f) |}.

Definition cruising : world :=
  Examples.connected (Examples.provider 47.6 (- 122.3)) cruising_link.

(** A handler whose provider replies without ["result"]. *)
Definition misinformed : world :=
  Examples.connected replies_without_result cruising_link.

(** A handler offered the cruising link by dronekit. *)
Definition about_to_connect : world :=
  Examples.fresh (Examples.provider 47.6 (- 122.3)) (Examples.connects_to cruising_link).

(** A waypoint file of two data rows, and the same rows with another
    first column. *)
Definition first_row : string :=
  Examples.row ["0"; "1"; "3"; "16"; "0"; "0"; "0"; "0"; "47.5"; "-122.3"; "10"; "1"].

Definition second_row : string :=
  Examples.row ["1"; "0"; "3"; "21"; "0"; "0"; "0"; "0"; "47.6"; "-122.3"; "0"; "1"].

Definition landing : Mission.Command :=
  {| Mission.target_system := 0; Mission.target_component := 0; Mission.seq := 0;
     Mission.frame := 3; Mission.command := 21; Mission.current := 0;
     Mission.autocontinue := 1;
     Mission.param1 := Text.Finite 0; Mission.param2 := Text.Finite 0;
     Mission.param3 := Text.Finite 0; Mission.param4 := Text.Finite 0;
     Mission.x := Text.Finite (238 # 5); Mission.y := Text.Finite (- 1223 # 10);
     Mission.z := Text.Finite 0 |}.

Definition header_line : string := ("QGC WPL 110" ++ Examples.nl)%string.

(** A row with a word where a number is due. *)
Definition worded_row : string :=
  Examples.row ["2"; "0"; "3"; "16"; "0"; "0"; "0"; "0"; "north"; "-122.3"; "0"; "1"].

End Cases.

(** * Properties of the handler *)

Module Facts.
Import Interop UGV Observed Examples.
Local Open Scope R_scope.

(** ** Running a method on a world whose parts are named *)

(** Name every attribute of the handler and of the link it holds. *)
Ltac open_world w :=
  let h := fresh "h" in
  destruct w as [h ? ?];
  destruct h as [[?] ? ? [[]|] ? ? ? ? ? ? ? ? ? ? ? ? ? ?].

(** Unfold the methods and the monad, by value: numbers, texts and
    mappings are left as they stand. *)
Ltac evaluate :=
  cbv [update update_body connect quick stats get_armed arm
       get_param set_param wait_for_param_load
       try_excepts dispatch vehicle_arm parameter_get parameter_set
       bind ret raise try_except gets modify lift assign attr read get_data
       dronekit_connect_call as_GeneralError any_Exception on_self logged
       truthy negb subscript_result subscript_drop mode_name is_ok andb orb
       is_TimeoutError is_InvalidStateError is_ValueError
       fst snd self dronekit_connect link_log
       gs port serial vehicle yaw ground_speed droppos dest dist_to_dest battery
       lat lon connection mode gps commands armed status
       set_vehicle set_yaw set_ground_speed set_droppos set_dest set_dist_to_dest
       set_battery set_lat set_lon set_connection set_mode set_gps set_armed
       interop_get_data result Link.set_parameters Link.set_armed
       Link.location_global_relative_frame Link.attitude Link.battery
       Link.groundspeed Link.gps_0 Link.mode Link.armed Link.is_armable
       Link.system_status_state Link.parameters Link.arm_raises Link.parameter_echo] in *.

(** Decide the next test the method makes. *)
Ltac case_step :=
  match goal with
  | |- context [match ?x with _ => _ end] => is_var x; destruct x
  | |- context [if ?x then _ else _] => is_var x; destruct x
  | |- context [match ?f ?a with _ => _ end] => is_var f; destruct (f a) as [[[]]|]
  | |- context [match ?f ?a ?b ?c with _ => _ end] => is_var f; destruct (f a b c) as [[]|]
  end; cbv beta iota.

Ltac run := evaluate; repeat case_step.

(** The log grew by the accesses at its head. *)
Ltac grown_by_reads :=
  lazymatch goal with
  | |- exists _, ?l = _ ++ ?l /\ _ => exists []
  | |- exists _, ?a :: ?l = _ ++ ?l /\ _ => exists [a]
  | |- exists _, ?a :: ?b :: ?l = _ ++ ?l /\ _ => exists [a; b]
  | |- exists _, ?a :: ?b :: ?c :: ?l = _ ++ ?l /\ _ => exists [a; b; c]
  end; split; reflexivity.

(** ** [update] *)

(** [update] never assigns [self.vehicle]. *)
Lemma update_keeps_vehicle w : vehicle (self (snd (update w))) = vehicle (self w).
Proof. open_world w; run; reflexivity. Qed.



(** Once they succeed, the yaw is assigned, and not assigned again. *)
Lemma update_yaw w v loc rpy bat :
  vehicle (self w) = Some v ->
  Link.location_global_relative_frame v = Ok loc ->
  Link.attitude v = Ok rpy ->
  Link.battery v = Ok bat ->
  yaw (self (snd (update w)))
  = Some (yaw_degrees (Link.yaw rpy) + yaw_shift (yaw_degrees (Link.yaw rpy))).
Proof.
  open_world w; evaluate; intros [= <-]; cbv beta iota.
  intros -> -> ->; cbv beta iota.
  repeat case_step; reflexivity.
Qed.

(** A refresh with the target cached and every read answered. *)
Lemma update_with_cached_target w v loc rpy bat speed g m a drop :
  vehicle (self w) = Some v ->
  Link.location_global_relative_frame v = Ok loc ->
  Link.attitude v = Ok rpy ->
  Link.battery v = Ok bat ->
  Link.groundspeed v = Ok speed ->
  Link.gps_0 v = Ok g ->
  Link.mode v = Ok m ->
  Link.armed v = Ok a ->
  droppos (self w) = Some (ResultEntry drop) ->
  fst (update w) = Ok tt /\
  dist_to_dest (self (snd (update w)))
  = Some (distance drop (Link.lat loc) (Link.lon loc)).
Proof.
  open_world w; evaluate; intros [= <-]; cbv beta iota.
  intros -> -> -> -> -> -> -> ->; cbv beta iota. split; reflexivity.
Qed.


(** ** Yaw and distance as numbers *)

Lemma yaw_degrees_turns k : yaw_degrees (k * PI / 180) = k.
Proof. unfold yaw_degrees. field. apply PI_neq0. Qed.

Lemma yaw_shift_negative y : y < 0 -> yaw_shift y = 360.
Proof. intros H. unfold yaw_shift. destruct (Rlt_dec y 0); [reflexivity | contradiction]. Qed.

Lemma yaw_shift_nonnegative y : 0 <= y -> yaw_shift y = 0.
Proof. intros H. unfold yaw_shift. destruct (Rlt_dec y 0); [lra | reflexivity]. Qed.

(** Within one turn either way the stored yaw is in [[0, 360)]. *)
Lemma yaw_within_one_turn r :
  - 2 * PI <= r < 2 * PI ->
  0 <= yaw_degrees r + yaw_shift (yaw_degrees r) < 360.
Proof.
  intros [Hlo Hhi]. pose proof PI_RGT_0 as Hpi.
  assert (Hd : yaw_degrees r * PI = r * 180).
  { unfold yaw_degrees. field. apply PI_neq0. }
  assert (- 360 <= yaw_degrees r < 360) as [Hl Hh] by (split; nra).
  destruct (Rlt_dec (yaw_degrees r) 0) as [Hneg | Hpos].
  - rewrite yaw_shift_negative by assumption. lra.
  - rewrite yaw_shift_nonnegative by lra. lra.
Qed.

(** The handler's distance, written out: the cosine multiplies the
    difference of the latitudes. *)
Lemma distance_written_out drop lat0 lon0 :
  distance drop lat0 lon0
  = sqrt (((latitude drop - lat0) * cos (lat0 * PI / 180) * 69.172 * 5280) ^ 2
          + ((longitude drop - lon0) * 69.172 * 5280) ^ 2).
Proof.
  unfold distance, x_dist_ft, y_dist_ft. f_equal. ring.
Qed.

Lemma cos_60_degrees : cos (60 * PI / 180) = 1 / 2.
Proof. replace (60 * PI / 180) with (PI / 3) by field. apply cos_PI3. Qed.

Lemma distance_60N_one_degree_east :
  distance {| latitude := 60; longitude := 1 |} 60 0 = 69.172 * 5280.
Proof.
  rewrite distance_written_out. cbn [latitude longitude].
  replace (((60 - 60) * cos (60 * PI / 180) * 69.172 * 5280) ^ 2
           + ((1 - 0) * 69.172 * 5280) ^ 2)
    with ((69.172 * 5280) ^ 2) by ring.
  apply sqrt_pow2. lra.
Qed.

Lemma spec_distance_60N_one_degree_east :
  Spec.distance_to_target 60 1 60 0 = 69.172 * 5280 / 2.
Proof.
  unfold Spec.distance_to_target, Spec.dx_ft, Spec.dy_ft.
  rewrite cos_60_degrees.
  replace (((1 - 0) * (1 / 2) * 69.172 * 5280) ^ 2 + ((60 - 60) * 69.172 * 5280) ^ 2)
    with ((69.172 * 5280 / 2) ^ 2) by field.
  apply sqrt_pow2. lra.
Qed.

(** ** C1 *)

(** C1: the distance a refresh stores is not the one of the
    specification's formula.  With the vehicle at 60 N, 0 E and the
    cached drop position at 60 N, 1 E, [update] succeeds and stores
    69.172 * 5280 feet (a degree of longitude as long as at the
    equator), where the formula gives half of that: the handler
    multiplies the difference of the latitudes, not that of the
    longitudes, by the cosine of the latitude. *)
Theorem update_distance_at_60N :
  fst (update at_60N) = Ok tt /\
  dist_to_dest (self (snd (update at_60N))) = Some (69.172 * 5280) /\
  Spec.distance_to_target 60 1 60 0 = 69.172 * 5280 / 2 /\
  dist_to_dest (self (snd (update at_60N)))
  <> Some (Spec.distance_to_target 60 1 60 0).
Proof.
  destruct (update_with_cached_target at_60N _ _ _ _ _ _ _ _ _
              eq_refl eq_refl eq_refl eq_refl eq_refl eq_refl eq_refl eq_refl eq_refl)
    as [Hok Hdist].
  cbn [Link.lat Link.lon] in Hdist.
  rewrite distance_60N_one_degree_east in Hdist.
  rewrite Hdist, spec_distance_60N_one_degree_east.
  repeat split; try assumption.
  intros [= H]. lra.
Qed.

(** ** C2 *)





(** ** C3 *)






(** A raw yaw of minus ten degrees is stored as 350. *)
Lemma yaw_minus_10_is_stored_as_350 :
  yaw (self (snd (update yaw_minus_10))) = Some 350.
Proof.
  rewrite (update_yaw yaw_minus_10 _ _ _ _ eq_refl eq_refl eq_refl eq_refl).
  cbn [Link.yaw]. rewrite yaw_degrees_turns, yaw_shift_negative by lra. f_equal. lra.
Qed.

(** In binary64 the bound 360 is met: a raw yaw of [- 2 ^ -60] radians,
    negative, is stored as 360. *)
Lemma tiny_negative_yaw_is_stored_as_360 :
  Binary64.is_negative Binary64.tiny_negative_yaw = true /\
  Binary64.stored_yaw Binary64.tiny_negative_yaw = Binary64.full_turn.
Proof. split; vm_compute; reflexivity. Qed.


(** ** C5: [quick] and [stats] *)

Lemma quick_run w : quick w = (Ok (snapshot_of (self w)), w).
Proof. destruct w as [[] ? ?]. reflexivity. Qed.

(** [stats] assigns nothing and only reads the link. *)
Lemma stats_frame w :
  self (snd (stats w)) = self w /\
  dronekit_connect (snd (stats w)) = dronekit_connect w /\
  exists reads,
    link_log (snd (stats w)) = reads ++ link_log w /\
    forallb Link.is_read reads = true.
Proof.
  open_world w; run; (split; [reflexivity | split; [reflexivity | grown_by_reads]]).
Qed.

(** What [stats] reports: the cache for the snapshot, the mode and the
    commands; the link for the status and the armed state, which is
    classified from the link's [armed] and, the vehicle disarmed, its
    [is_armable]; and the reads it makes for them. *)
Lemma stats_result_sources w r :
  fst (stats w) = Ok r ->
  s_quick r = snapshot_of (self w) /\
  s_commands r = commands (self w) /\
  mode_name (mode (self w)) = Ok (s_mode r) /\
  exists v, vehicle (self w) = Some v /\
            Link.system_status_state v = Ok (s_status r) /\
            (Link.armed v = Ok true -> s_armed r = "ARMED") /\
            ((Link.armed v = Ok true /\
              s_armed r = "ARMED" /\
              link_log (snd (stats w))
              = Link.Read "system_status.state" :: Link.Read "armed" :: link_log w) \/
             (Link.armed v = Ok false /\
              exists armable,
                Link.is_armable v = Ok armable /\
                s_armed r = (if armable then "DISARMED (ARMABLE)"
                             else "DISARMED (NOT ARMABLE)") /\
                link_log (snd (stats w))
                = Link.Read "system_status.state" :: Link.Read "is_armable"
                  :: Link.Read "armed" :: link_log w)).
Proof.
  open_world w; run; intros H; try discriminate; injection H as <-;
    (split; [reflexivity | split; [reflexivity | split; [reflexivity |]]]);
    eexists; (split; [reflexivity | split; [reflexivity | split]]).
  all: try (cbn; intros H; (reflexivity || discriminate H)).
  all: try (left; repeat split; reflexivity).
  all: right; split; [reflexivity |]; eexists; repeat split; reflexivity.
Qed.

(** C5, as stated, fails for [stats]: on a connected handler whose
    cached armed flag is false while the vehicle is armed, [stats]
    reads the link twice and reports what the link says. *)
Lemma stats_reads_the_link :
  armed (self armed_on_link) = false /\
  option_map s_armed
    (match fst (stats armed_on_link) with Ok r => Some r | Raised _ => None end)
  = Some "ARMED" /\
  link_log armed_on_link = [] /\
  link_log (snd (stats armed_on_link))
  = [Link.Read "system_status.state"; Link.Read "armed"].
Proof. repeat split. Qed.

(** C5, amended: [quick] makes no access to the link and returns the
    cached snapshot fields, leaving the world as it found it; [stats]
    writes nothing, neither to the handler nor to the link, but reads
    the link: its status entry is the link's [system_status.state] and
    its armed-state entry is classified from the link's [armed] flag
    and, the vehicle disarmed, its [is_armable] flag, all read live;
    only its snapshot, mode and commands entries come from the
    cache. *)
Theorem quick_and_stats_frame w :
  quick w = (Ok (snapshot_of (self w)), w) /\
  self (snd (stats w)) = self w /\
  (exists reads,
     link_log (snd (stats w)) = reads ++ link_log w /\
     forallb Link.is_read reads = true) /\
  (forall r, fst (stats w) = Ok r ->
     s_quick r = snapshot_of (self w) /\
     s_commands r = commands (self w) /\
     mode_name (mode (self w)) = Ok (s_mode r) /\
     exists v, vehicle (self w) = Some v /\
               Link.system_status_state v = Ok (s_status r) /\
               (Link.armed v = Ok true -> s_armed r = "ARMED") /\
               ((Link.armed v = Ok true /\
                 s_armed r = "ARMED" /\
                 link_log (snd (stats w))
                 = Link.Read "system_status.state" :: Link.Read "armed" :: link_log w) \/
                (Link.armed v = Ok false /\
                 exists armable,
                   Link.is_armable v = Ok armable /\
                   s_armed r = (if armable then "DISARMED (ARMABLE)"
                                else "DISARMED (NOT ARMABLE)") /\
                   link_log (snd (stats w))
                   = Link.Read "system_status.state" :: Link.Read "is_armable"
                     :: Link.Read "armed" :: link_log w))).
Proof.
  destruct (stats_frame w) as (Hself & _ & Hlog).
  split; [apply quick_run |].
  split; [assumption |].
  split; [assumption |].
  intros r Hr. apply stats_result_sources, Hr.
Qed.

(** On connected handlers whose vehicle is armed, disarmed and armable,
    and not armable. *)
Lemma quick_and_stats_frame_witness :
  quick armed_on_link = (Ok (snapshot_of (self armed_on_link)), armed_on_link) /\
  self (snd (stats armed_on_link)) = self armed_on_link /\
  (forall r, fst (stats parked) = Ok r -> s_armed r = "DISARMED (ARMABLE)") /\
  (forall r, fst (stats not_armable) = Ok r -> s_armed r = "DISARMED (NOT ARMABLE)").
Proof.
  destruct (quick_and_stats_frame armed_on_link) as (Hquick & Hself & _).
  split; [assumption |]. split; [assumption |]. split.
  - intros r Hr.
    destruct (quick_and_stats_frame parked) as (_ & _ & _ & H).
    destruct (H r Hr) as (_ & _ & _ & v & Hv & _ & _ & [(Ha & _) | (_ & a & Hb & Hs & _)]).
    + injection Hv as <-. discriminate Ha.
    + injection Hv as <-. injection Hb as <-. exact Hs.
  - intros r Hr.
    destruct (quick_and_stats_frame not_armable) as (_ & _ & _ & H).
    destruct (H r Hr) as (_ & _ & _ & v & Hv & _ & _ & [(Ha & _) | (_ & a & Hb & Hs & _)]).
    + injection Hv as <-. discriminate Ha.
    + injection Hv as <-. injection Hb as <-. exact Hs.
Defined.

(** ** C10: [quick] on a handler just constructed *)

(** C10: on a handler just constructed, whatever the ground station
    and the configuration, [quick] returns; its seven entries (yaw,
    lat, lon, ground_speed, battery, destination, connection) are all
    [None]; the handler's armed flag is false; and the call changes
    nothing. *)
Theorem quick_on_fresh_handler g p s dk :
  let w := {| self := init g p s; dronekit_connect := dk; link_log := [] |} in
  fst (quick w)
  = Ok {| q_yaw := None; q_lat := None; q_lon := None; q_ground_speed := None;
          q_battery := None; q_destination := None; q_connection := None |} /\
  armed (self w) = false /\
  snd (quick w) = w.
Proof. repeat split. Qed.

(** ** C6: [arm] *)

(** C6 fails in its last clause.  With the link reporting the vehicle
    not armable, [arm] raises [InvalidStateError] and the only access
    to the link is the read of [is_armable]: no arm request.  With the
    link reporting it armable, the arm request is issued with
    [wait=True] and a timeout of 15; but the timeout of that request
    is dronekit's own [TimeoutError], which the clause for the built-in
    [TimeoutError] does not catch: it comes out as a [GeneralError],
    the generic failure kind. *)
Theorem arm_timeout_is_a_general_error w v armable :
  vehicle (self w) = Some v ->
  Link.is_armable v = Ok armable ->
  if armable then
    fst (arm w) = arm_outcome (Link.arm_raises v) /\
    link_log (snd (arm w))
    = Link.CallArm true 15 :: Link.Read "is_armable" :: link_log w /\
    (forall m, Link.arm_raises v = Some (Link.dronekit_TimeoutError m) ->
       fst (arm w) = Raised (GeneralError m) /\
       is_TimeoutError (GeneralError m) = false)
  else
    arm w = (Raised (InvalidStateError "Vehicle is not armable"),
             logged (Link.Read "is_armable") w) /\
    existsb Link.is_arm_call (link_log (snd (arm w)))
    = existsb Link.is_arm_call (link_log w).
Proof.
  open_world w; evaluate; intros [= <-]; cbv beta iota. intros ->.
  destruct armable; cbv beta iota.
  - destruct arm_raises as [[]|];
      (split; [reflexivity | split; [reflexivity |]]);
      intros m' H; try discriminate H; injection H as _ <-; split; reflexivity.
  - repeat split.
Qed.

(** On a vehicle that is not armable, and on one whose arming times
    out. *)
Lemma arm_timeout_is_a_general_error_witness :
  arm not_armable
  = (Raised (InvalidStateError "Vehicle is not armable"),
     logged (Link.Read "is_armable") not_armable) /\
  fst (arm arming_times_out) = Raised (GeneralError "failed to arm vehicle").
Proof.
  split.
  - apply (arm_timeout_is_a_general_error not_armable _ false eq_refl eq_refl).
  - destruct (arm_timeout_is_a_general_error arming_times_out _ true eq_refl eq_refl)
      as (_ & _ & H).
    apply (H "failed to arm vehicle" eq_refl).
Defined.

(** ** C7: [connect] *)

(** C7, as stated, fails: a link that is established and then answers
    no read makes [connect] raise, and stays in [self.vehicle], which
    was unset before the call. *)
Lemma failed_connect_keeps_the_link :
  vehicle (self (fresh unreachable (connects_to silent_link))) = None /\
  fst (connect (fresh unreachable (connects_to silent_link)))
  = Raised (GeneralError "link lost") /\
  vehicle (self (snd (connect (fresh unreachable (connects_to silent_link)))))
  = Some silent_link.
Proof. repeat split. Qed.

(** C7, amended: a failed [connect] raises [GeneralError]; when it is
    dronekit's [connect] that raises, no attribute of the handler has
    changed, [self.vehicle] is what it was; when the link was
    established and the first refresh fails, the new link is held in
    [self.vehicle]. *)
Theorem failed_connect w e :
  fst (connect w) = Raised e ->
  (exists m, e = GeneralError m) /\
  match link_offered w with
  | Raised _ => self (snd (connect w)) = self w
  | Ok v => vehicle (self (snd (connect w))) = Some v
  end.
Proof.
  unfold link_offered.
  destruct w as [h dk lg];
    destruct h as [[?] ? [|] ? ? ? ? ? ? ? ? ? ? ? ? ? ? ?];
    evaluate; repeat case_step; try discriminate; intros [= <-]; eauto.
Qed.

(** With no link answering. *)
Lemma failed_connect_witness :
  self (snd (connect (fresh unreachable no_connection)))
  = self (fresh unreachable no_connection).
Proof.
  apply (failed_connect (fresh unreachable no_connection)
           (GeneralError "No heartbeat") eq_refl).
Defined.

(** ** C8: [readmission] *)

(** C8, as stated, fails: a first line that begins with the header
    literal and goes on is not equal to it, with or without its line
    end, and the file is read: the command of its data row is
    returned. *)
Lemma longer_header_is_accepted :
  nth_error longer_header_file 0 <> Some Mission.header /\
  nth_error longer_header_file 0 <> Some (Mission.header ++ nl)%string /\
  Mission.readmission longer_header_file = Ok [waypoint].
Proof.
  split; [| split].
  - vm_compute. discriminate.
  - vm_compute. discriminate.
  - vm_compute. reflexivity.
Qed.

(** C8, amended: for every file whose first line does not begin with
    the header literal [QGC WPL 110], [readmission] raises (a plain
    [Exception], "File is not supported WP version") and returns no
    command, whatever the other lines are; a first line [BAD HEADER]
    is such a line. *)
Theorem readmission_rejects_other_headers first rest :
  Text.startswith first Mission.header = false ->
  Mission.readmission (first :: rest)
  = Raised (PyException "File is not supported WP version").
Proof.
  intros H. unfold Mission.readmission, Mission.enumerate.
  cbn [length List.seq combine for_each].
  unfold bind at 1. unfold Mission.read_line at 1.
  cbn [Nat.eqb]. rewrite H. reflexivity.
Qed.

(** On a file whose first line is [BAD HEADER]. *)
Lemma readmission_rejects_other_headers_witness :
  Mission.readmission bad_header_file
  = Raised (PyException "File is not supported WP version").
Proof.
  apply (readmission_rejects_other_headers ("BAD HEADER" ++ nl)%string).
  vm_compute. reflexivity.
Defined.

(** ** C9 and C4: parameters *)

(** [float] of a value raises nothing but [ValueError]. *)
Lemma float_raises_ValueError value e :
  float value = Raised e -> exists m, e = ValueError m.
Proof.
  destruct value as [s | f]; [| discriminate].
  unfold float, Text.py_float.
  destruct (Text.sign _) as [neg cs].
  repeat match goal with
         | |- context [if ?c then _ else _] => destruct c
         | |- context [match ?x with _ => _ end] => destruct x
         end;
    try discriminate; intros [= <-]; eauto.
Qed.

(** The validation step of [set_param] and [set_params]. *)
Lemma validation_passes {S} value (s : S) :
  is_ok (float value) = true ->
  try_except (bind (lift (float value)) (fun _ => ret tt)) is_ValueError
    (fun _ => raise (InvalidRequestError "Parameter Value cannot be converted to float")) s
  = (Ok tt, s).
Proof.
  intros H. unfold try_except, bind, lift, ret.
  destruct (float value); [reflexivity | discriminate].
Qed.

Lemma validation_fails {S} value (s : S) :
  is_ok (float value) = false ->
  try_except (bind (lift (float value)) (fun _ => ret tt)) is_ValueError
    (fun _ => raise (InvalidRequestError "Parameter Value cannot be converted to float")) s
  = (Raised (InvalidRequestError "Parameter Value cannot be converted to float"), s).
Proof.
  intros H. unfold try_except, bind, lift, ret.
  destruct (float value) as [f | e] eqn:Hf; [discriminate |].
  destruct (float_raises_ValueError _ _ Hf) as [m ->]. reflexivity.
Qed.

(** A write, by what the link makes of it. *)
Lemma parameter_set_run key value w v :
  vehicle (self w) = Some v ->
  parameter_set key value w
  = match Link.parameters_setitem key value v with
    | Ok v' => (Ok tt, after_writes [(key, value)] w v')
    | Raised e => (Raised e, logged (Link.ParamSet key value) w)
    end.
Proof.
  intros Hv. unfold parameter_set. rewrite Hv.
  destruct (Link.parameters_setitem key value v); reflexivity.
Qed.



Lemma get_param_run key w v :
  vehicle (self w) = Some v ->
  get_param key w
  = (match Link.parameters v !! Text.upper key with
     | Some x => Ok x
     | None => Raised (GeneralError ("'" ++ Text.upper key ++ "'"))
     end, logged (Link.ParamGet key) w).
Proof.
  intros Hv. unfold get_param, wait_for_param_load, try_except, parameter_get.
  rewrite Hv. destruct (Link.parameters v !! Text.upper key); reflexivity.
Qed.

(** [set_param] of a text that [float] accepts: the text itself goes to
    the link, which refuses it. *)
Lemma set_param_refused key s w v :
  vehicle (self w) = Some v ->
  is_ok (Text.py_float s) = true ->
  set_param key (Link.VStr s) w
  = (Raised (GeneralError "required argument is not a float"),
     logged (Link.ParamSet key (Link.VStr s)) w).
Proof.
  intros Hv Hf. unfold set_param, wait_for_param_load. unfold bind at 1.
  rewrite validation_passes by exact Hf.
  unfold try_except at 1. rewrite (parameter_set_run key (Link.VStr s) w v Hv).
  reflexivity.
Qed.

(** [set_param] of a rejected value raises before any access to the
    link. *)
Lemma set_param_rejects key value w :
  is_ok (float value) = false ->
  set_param key value w
  = (Raised (InvalidRequestError "Parameter Value cannot be converted to float"), w).
Proof.
  intros Hf. unfold set_param, wait_for_param_load. unfold bind at 1.
  rewrite validation_fails by assumption. reflexivity.
Qed.

(** C9 fails in its first half.  On a connected handler, for every key
    and every text that [float] accepts (the text [3.14]), [set_param]
    hands the text itself to the link, not the float made of it; the
    link's mapping takes floats only and raises, so [set_param] raises
    [GeneralError], nothing is stored, and a following [get_param] of
    the key returns what it returned before, not 3.14.  For every text
    that [float] rejects, [set_param] raises [InvalidRequestError] and
    has made no access to the link, whose parameters are as before. *)
Theorem set_param_of_a_text key s w v :
  vehicle (self w) = Some v ->
  if is_ok (Text.py_float s) then
    set_param key (Link.VStr s) w
    = (Raised (GeneralError "required argument is not a float"),
       logged (Link.ParamSet key (Link.VStr s)) w) /\
    fst (get_param key (snd (set_param key (Link.VStr s) w))) = fst (get_param key w)
  else
    set_param key (Link.VStr s) w
    = (Raised (InvalidRequestError "Parameter Value cannot be converted to float"), w).
Proof.
  intros Hv. destruct (is_ok (Text.py_float s)) eqn:Hf.
  - rewrite (set_param_refused key s w v Hv Hf). split; [reflexivity |].
    cbn [snd].
    rewrite (get_param_run key (logged (Link.ParamSet key (Link.VStr s)) w) v Hv),
      (get_param_run key w v Hv).
    reflexivity.
  - apply set_param_rejects. exact Hf.
Qed.

(** With the texts [3.14] and [not-a-number], on a vehicle that holds
    no parameter [KEY]. *)
Lemma set_param_of_a_text_witness :
  Text.py_float "3.14" = Ok (Text.Finite (157 # 50)) /\
  fst (set_param "KEY" (Link.VStr "3.14") parked)
  = Raised (GeneralError "required argument is not a float") /\
  fst (get_param "KEY" (snd (set_param "KEY" (Link.VStr "3.14") parked)))
  = Raised (GeneralError "'KEY'") /\
  set_param "KEY" (Link.VStr "not-a-number") parked
  = (Raised (InvalidRequestError "Parameter Value cannot be converted to float"), parked).
Proof.
  split; [vm_compute; reflexivity |].
  destruct (set_param_of_a_text "KEY" "3.14" parked _ eq_refl) as [Hset Hget].
  split; [rewrite Hset; reflexivity |].
  split; [rewrite Hget; reflexivity |].
  apply (set_param_of_a_text "KEY" "not-a-number" parked _ eq_refl).
Defined.






End Facts.

(** * Further properties *)

Module MoreFacts.
Import Interop UGV Observed Examples Methods Cases Facts.
Local Open Scope R_scope.

(** ** [readmission]: the data rows *)

Ltac row_steps :=
  repeat match goal with
         | |- context [match Text.index ?l ?i with _ => _ end] =>
             destruct (Text.index l i) eqn:?
         | |- context [match Text.py_int ?s with _ => _ end] =>
             destruct (Text.py_int s) eqn:?
         | |- context [match Text.py_float ?s with _ => _ end] =>
             destruct (Text.py_float s) eqn:?
         end.

(** A row is read the same whatever was read before it: it appends
    its command, or raises and appends nothing. *)
Lemma read_row_from ml line :
  Mission.read_row line ml
  = (fst (Mission.read_row line []), ml ++ snd (Mission.read_row line [])).
Proof.
  unfold Mission.read_row. cbv [bind lift modify ret fst snd].
  row_steps; cbn [app]; rewrite ?app_nil_r; reflexivity.
Qed.

Lemma read_row_outcome line :
  (exists c, Mission.read_row line [] = (Ok tt, [c]) /\ unaddressed c) \/
  (exists e, Mission.read_row line [] = (Raised e, [])).
Proof.
  unfold Mission.read_row. cbv [bind lift modify ret].
  row_steps; cbn [app];
    first [ right; eexists; reflexivity
          | left; eexists; split; [reflexivity | repeat split] ].
Qed.

Lemma row_gives_from ml line c :
  row_gives line c -> Mission.read_row line ml = (Ok tt, ml ++ [c]).
Proof. intros H. rewrite read_row_from, H. reflexivity. Qed.

Lemma row_raises_from ml line e :
  row_raises line e -> Mission.read_row line ml = (Raised e, ml).
Proof. intros H. rewrite read_row_from, H. cbn. rewrite app_nil_r. reflexivity. Qed.

(** The loop over data rows that all parse. *)
Lemma rows_loop rows cmds :
  Forall2 row_gives rows cmds ->
  forall k ml rest,
    for_each (combine (List.seq (S k) (length rows)) rows ++ rest) Mission.read_line ml
    = for_each rest Mission.read_line (ml ++ cmds).
Proof.
  induction 1 as [| row c rows cmds Hrow _ IH]; intros k ml rest.
  - cbn. rewrite app_nil_r. reflexivity.
  - cbn [length List.seq combine app for_each]. unfold bind at 1.
    cbn [Mission.read_line Nat.eqb]. rewrite (row_gives_from ml row c Hrow).
    rewrite IH, <- app_assoc. reflexivity.
Qed.

(** The loop over data rows, when it completes. *)
Lemma rows_loop_completed rows : forall k ml ml',
  for_each (combine (List.seq (S k) (length rows)) rows) Mission.read_line ml
  = (Ok tt, ml') ->
  exists cmds, Forall2 row_gives rows cmds /\ Forall unaddressed cmds /\ ml' = ml ++ cmds.
Proof.
  induction rows as [| row rows IH]; intros k ml ml'.
  - cbn. intros [= <-]. exists []. rewrite app_nil_r. repeat constructor.
  - cbn [length List.seq combine for_each]. unfold bind at 1.
    cbn [Mission.read_line Nat.eqb]. rewrite read_row_from.
    destruct (read_row_outcome row) as [(c & Hc & Hzero) | (e & He)].
    + rewrite Hc. cbn [fst snd]. intros Hloop.
      destruct (IH _ _ _ Hloop) as (cmds & Hrows & Hzeros & ->).
      exists (c :: cmds). rewrite <- app_assoc.
      split; [constructor; assumption |].
      split; [constructor; assumption | reflexivity].
    + rewrite He. discriminate.
Qed.


Lemma readmission_cons first rows :
  Text.startswith first Mission.header = true ->
  Mission.readmission (first :: rows)
  = match for_each (combine (List.seq 1 (length rows)) rows) Mission.read_line [] with
    | (Ok _, missionlist) => Ok missionlist
    | (Raised e, _) => Raised e
    end.
Proof.
  intros H. unfold Mission.readmission, Mission.enumerate.
  cbn [length List.seq combine for_each]. unfold bind at 1.
  unfold Mission.read_line at 1. cbn [Nat.eqb]. rewrite H. reflexivity.
Qed.

(** X1: a file without data rows is read as the empty mission: an
    empty file (no header to test) and a file of one line that begins
    with the header literal both give the empty list, with no error. *)
Theorem readmission_without_rows first :
  Text.startswith first Mission.header = true ->
  Mission.readmission [] = Ok [] /\ Mission.readmission [first] = Ok [].
Proof.
  intros H. split; [reflexivity |]. rewrite readmission_cons by assumption. reflexivity.
Qed.

(** With the header line alone. *)
Lemma readmission_without_rows_witness :
  Mission.readmission [] = Ok [] /\ Mission.readmission [header_line] = Ok [].
Proof.
  apply (readmission_without_rows header_line). vm_compute. reflexivity.
Defined.

(** X2: when the first line begins with the header literal,
    [readmission] returns a list exactly when every other line is a
    row that parses, and the list is then the rows' commands, one per
    row, in the order of the file. *)
Theorem readmission_rows_in_order first rows cmds :
  Text.startswith first Mission.header = true ->
  Mission.readmission (first :: rows) = Ok cmds <-> Forall2 row_gives rows cmds.
Proof.
  intros Hfirst. rewrite readmission_cons by assumption. split.
  - destruct (for_each _ Mission.read_line []) as [[[] | e] ml'] eqn:Hloop;
      [| discriminate].
    intros [= <-].
    destruct (rows_loop_completed rows 0 [] ml' Hloop) as (cs & Hrows & _ & ->).
    exact Hrows.
  - intros Hrows. rewrite <- (app_nil_r (combine _ rows)).
    rewrite (rows_loop rows cmds Hrows 0 [] []). reflexivity.
Qed.

(** With a waypoint and a landing. *)
Lemma readmission_rows_in_order_witness :
  Mission.readmission [header_line; first_row; second_row] = Ok [waypoint; landing].
Proof.
  apply (readmission_rows_in_order header_line [first_row; second_row]).
  - vm_compute. reflexivity.
  - repeat constructor; vm_compute; reflexivity.
Defined.

Lemma numbered_app {A} k (xs ys : list A) :
  combine (List.seq k (length (xs ++ ys))) (xs ++ ys)
  = combine (List.seq k (length xs)) xs
    ++ combine (List.seq (k + length xs) (length ys)) ys.
Proof.
  revert k. induction xs as [| x xs IH]; intros k.
  - cbn. rewrite Nat.add_0_r. reflexivity.
  - cbn [length List.seq combine app]. rewrite IH.
    replace (S k + length xs)%nat with (k + S (length xs))%nat by lia. reflexivity.
Qed.

(** X3: when a row raises, [readmission] raises the same exception
    and returns nothing: the commands of the rows read before it are
    lost, and the rows after it are not read. *)
Theorem readmission_stops_at_bad_row first good cmds bad e rest :
  Text.startswith first Mission.header = true ->
  Forall2 row_gives good cmds ->
  row_raises bad e ->
  Mission.readmission (first :: good ++ bad :: rest) = Raised e.
Proof.
  intros Hfirst Hgood Hbad. rewrite readmission_cons by assumption.
  rewrite (numbered_app 1 good (bad :: rest)).
  rewrite (rows_loop good cmds Hgood 0 [] _).
  cbn [length List.seq combine for_each app]. unfold bind at 1.
  replace (1 + length good)%nat with (S (length good)) by reflexivity.
  cbn [Mission.read_line Nat.eqb]. rewrite (row_raises_from _ bad e Hbad). reflexivity.
Qed.

(** With a word for a latitude in the second row. *)
Lemma readmission_stops_at_bad_row_witness :
  Mission.readmission [header_line; first_row; worded_row; second_row]
  = Raised (ValueError "could not convert string to float").
Proof.
  apply (readmission_stops_at_bad_row header_line [first_row] [waypoint]
           worded_row _ [second_row]).
  - vm_compute. reflexivity.
  - repeat constructor; vm_compute; reflexivity.
  - vm_compute. reflexivity.
Defined.

Lemma index_within {A} (xs : list A) i x :
  Text.index xs i = Ok x -> (i < length xs)%nat.
Proof.
  unfold Text.index. destruct (nth_error xs i) eqn:H; [| discriminate].
  intros _. apply nth_error_Some. congruence.
Qed.

(** X4: a line with fewer than twelve tab-separated fields, a blank
    line among them, is not a row: reading it raises, and adds no
    command. *)
Theorem short_row_raises line ml :
  (length (Text.split Mission.tab line) < 12)%nat ->
  exists e, Mission.read_row line ml = (Raised e, ml).
Proof.
  intros Hshort.
  destruct (read_row_outcome line) as [(c & Hc & _) | (e & He)].
  - exfalso. revert Hc. unfold Mission.read_row. cbv [bind lift modify ret].
    row_steps; try discriminate. intros _.
    match goal with
    | H : Text.index _ 11 = Ok _ |- _ => apply index_within in H; lia
    end.
  - exists e. apply row_raises_from. exact He.
Qed.

(** On a blank line. *)
Lemma short_row_raises_witness :
  exists e, Mission.read_row nl [waypoint] = (Raised e, [waypoint]).
Proof.
  apply (short_row_raises nl [waypoint]). vm_compute. lia.
Defined.

Lemma other_header_raises first rest :
  Text.startswith first Mission.header = false ->
  Mission.readmission (first :: rest)
  = Raised (PyException "File is not supported WP version").
Proof.
  intros H. unfold Mission.readmission, Mission.enumerate.
  cbn [length List.seq combine for_each]. unfold bind at 1.
  unfold Mission.read_line at 1. cbn [Nat.eqb]. rewrite H. reflexivity.
Qed.

(** X5: every command [readmission] returns has its target system,
    its target component and its sequence number set to zero, whatever
    the file says, and there is one command per line after the first. *)
Theorem readmission_commands lines cmds :
  Mission.readmission lines = Ok cmds ->
  Forall unaddressed cmds /\ length cmds = Nat.pred (length lines).
Proof.
  destruct lines as [| first rows].
  - intros [= <-]. split; [constructor | reflexivity].
  - destruct (Text.startswith first Mission.header) eqn:Hfirst.
    + rewrite readmission_cons by assumption.
      destruct (for_each _ Mission.read_line []) as [[[] | e] ml'] eqn:Hloop;
        [| discriminate].
      intros [= <-].
      destruct (rows_loop_completed rows 0 [] ml' Hloop) as (cs & Hrows & Hzeros & ->).
      split; [assumption |]. apply Forall2_length in Hrows. cbn. congruence.
    + rewrite (other_header_raises first rows Hfirst). discriminate.
Qed.

(** On the file of a waypoint and a landing. *)
Lemma readmission_commands_witness :
  Forall unaddressed [waypoint; landing] /\ length [waypoint; landing] = 2%nat.
Proof.
  apply (readmission_commands [header_line; first_row; second_row]).
  vm_compute. reflexivity.
Defined.

Lemma split_String sep c s :
  Text.split sep (String c s)
  = if Ascii.eqb c sep then EmptyString :: Text.split sep s
    else match Text.split sep s with
         | w :: ws => String c w :: ws
         | [] => [String c EmptyString]
         end.
Proof. reflexivity. Qed.

Lemma split_first_field f0 rest :
  tab_free f0 ->
  Text.split Mission.tab (f0 ++ String Mission.tab rest)
  = f0 :: Text.split Mission.tab rest.
Proof.
  unfold tab_free. induction f0 as [| c f0 IH]; intros Hfree.
  - change (EmptyString ++ String Mission.tab rest)%string with (String Mission.tab rest).
    rewrite split_String, Ascii.eqb_refl. reflexivity.
  - cbn [list_ascii_of_string] in Hfree. inversion Hfree as [| ? ? Hc Hrest]; subst.
    change (String c f0 ++ String Mission.tab rest)%string
      with (String c (f0 ++ String Mission.tab rest)).
    rewrite split_String.
    destruct (Ascii.eqb c Mission.tab) eqn:Heq.
    + apply Ascii.eqb_eq in Heq. contradiction.
    + rewrite (IH Hrest). reflexivity.
Qed.

(** X6: the first column of a data row, the index of the waypoint in
    the file, is not read: two rows that differ in it alone are read
    alike. *)
Theorem first_column_is_ignored f0 f0' rest ml :
  tab_free f0 -> tab_free f0' ->
  Mission.read_row (f0 ++ String Mission.tab rest) ml
  = Mission.read_row (f0' ++ String Mission.tab rest) ml.
Proof.
  intros H H'. unfold Mission.read_row.
  rewrite (split_first_field f0 rest H), (split_first_field f0' rest H').
  reflexivity.
Qed.

(** With the index 0 and the index 7. *)
Lemma first_column_is_ignored_witness :
  Mission.read_row ("0" ++ String Mission.tab "1") [waypoint]
  = Mission.read_row ("700" ++ String Mission.tab "1") [waypoint].
Proof.
  apply (first_column_is_ignored "0" "700" "1" [waypoint]);
    repeat constructor; discriminate.
Defined.

(** ** The handler: armed state, refresh, connection *)

(** [get_armed] on a connected handler, case by case. *)
Lemma get_armed_run w v :
  vehicle (self w) = Some v ->
  get_armed w = (fst (armed_report v), with_reads (snd (armed_report v)) w).
Proof.
  unfold armed_report, with_reads.
  open_world w; evaluate; intros [=]; subst; cbv beta iota.
  repeat case_step; reflexivity.
Qed.

(** X7: [get_armed] on a connected handler changes nothing but the
    log of reads, and what it says follows the link: [ARMED] exactly
    when the link reports the vehicle armed, in which case
    [is_armable] is not even read; [DISARMED (ARMABLE)] and
    [DISARMED (NOT ARMABLE)] exactly when it reports it disarmed and,
    respectively, armable or not; and when it raises, it raises
    [GeneralError]. *)
Theorem get_armed_follows_the_link w v :
  vehicle (self w) = Some v ->
  self (snd (get_armed w)) = self w /\
  (fst (get_armed w) = Ok "ARMED" <-> Link.armed v = Ok true) /\
  (fst (get_armed w) = Ok "DISARMED (ARMABLE)"
   <-> Link.armed v = Ok false /\ Link.is_armable v = Ok true) /\
  (fst (get_armed w) = Ok "DISARMED (NOT ARMABLE)"
   <-> Link.armed v = Ok false /\ Link.is_armable v = Ok false) /\
  (Link.armed v = Ok true ->
   link_log (snd (get_armed w)) = Link.Read "armed" :: link_log w) /\
  (forall e, fst (get_armed w) = Raised e -> exists m, e = GeneralError m).
Proof.
  intros Hv. rewrite (get_armed_run w v Hv). unfold armed_report.
  destruct (Link.armed v) as [[|] | ea]; [| destruct (Link.is_armable v) as [[|] | eb] |];
    cbn [fst snd with_reads self link_log app];
    (split; [reflexivity |]);
    repeat split; try discriminate; try tauto; try congruence;
    try (intros [? ?]; discriminate); try (intros ? [= <-]; eauto).
Qed.

(** On an armed vehicle. *)
Lemma get_armed_follows_the_link_witness :
  fst (get_armed armed_on_link) = Ok "ARMED" /\
  link_log (snd (get_armed armed_on_link)) = [Link.Read "armed"].
Proof.
  destruct (get_armed_follows_the_link armed_on_link _ eq_refl)
    as (_ & Harmed & _ & _ & Hlog & _).
  split; [apply Harmed; reflexivity | apply Hlog; reflexivity].
Defined.

(** X8: on a handler that holds no link, [update], [get_armed], [arm]
    and [get_flight_mode] raise [GeneralError], and [stats] does so
    too while the cached mode is a mode object; none of them changes
    anything, the snapshot included. *)
Theorem without_a_link w name :
  vehicle (self w) = None ->
  mode (self w) = ModeObject name ->
  update w = (Raised not_connected_error, w) /\
  get_armed w = (Raised not_connected_error, w) /\
  arm w = (Raised not_connected_error, w) /\
  get_flight_mode w = (Raised not_connected_error, w) /\
  stats w = (Raised not_connected_error, w).
Proof.
  intros Hv Hmode.
  unfold get_flight_mode, not_connected_error.
  destruct w as [h dk lg]; destruct h; evaluate; subst.
  repeat split.
Qed.

(** On a handler just constructed. *)
Lemma without_a_link_witness :
  update (fresh unreachable no_connection)
  = (Raised not_connected_error, fresh unreachable no_connection) /\
  stats (fresh unreachable no_connection)
  = (Raised not_connected_error, fresh unreachable no_connection).
Proof.
  destruct (without_a_link (fresh unreachable no_connection)
              {| Link.name := "MANUAL" |} eq_refl eq_refl) as (H1 & _ & _ & _ & H5).
  split; assumption.
Defined.

(** X9: a refresh that succeeds publishes what the link reports:
    latitude, longitude, battery voltage, the ground speed multiplied
    by 2.23694, the three gps figures, the mode and the armed flag;
    the target is then cached and the distance stored is the one to
    it. *)
Theorem update_publishes_the_link w v loc rpy bat speed g m a :
  vehicle (self w) = Some v ->
  Link.location_global_relative_frame v = Ok loc ->
  Link.attitude v = Ok rpy ->
  Link.battery v = Ok bat ->
  Link.groundspeed v = Ok speed ->
  Link.gps_0 v = Ok g ->
  Link.mode v = Ok m ->
  Link.armed v = Ok a ->
  fst (update w) = Ok tt ->
  let h := self (snd (update w)) in
  lat h = Some (Link.lat loc) /\ lon h = Some (Link.lon loc) /\
  battery h = Some (Link.voltage bat) /\
  ground_speed h = Some (speed * 2.23694) /\
  gps h = Some g /\
  connection h = Some [Link.eph g; Link.epv g; Link.satellites_visible g] /\
  mode h = ModeObject m /\ armed h = a /\
  exists drop,
    droppos h = Some (ResultEntry drop) /\
    dist_to_dest h = Some (distance drop (Link.lat loc) (Link.lon loc)) /\
    dest h = Some (ResultEntry drop, distance drop (Link.lat loc) (Link.lon loc)).
Proof.
  open_world w; evaluate; intros [=]; subst; cbv beta iota.
  intros -> -> -> -> -> -> ->; cbv beta iota.
  repeat case_step; try discriminate; intros _;
    repeat (split; [reflexivity |]); eexists; repeat split.
Qed.

(** On the cruising vehicle. *)
Lemma update_publishes_the_link_witness :
  lat (self (snd (update cruising))) = Some 47.5 /\
  armed (self (snd (update cruising))) = true.
Proof.
  destruct (update_publishes_the_link cruising _ _ _ _ _ _ _ _
              eq_refl eq_refl eq_refl eq_refl eq_refl eq_refl eq_refl eq_refl eq_refl)
    as (Hlat & _ & _ & _ & _ & _ & _ & Harmed & _).
  split; assumption.
Defined.

(** X10: what [self.droppos] holds is never replaced: a refresh,
    failed or not, leaves a cached value as it is, and does not ask
    the target provider, so that what it returns and what it leaves in
    the handler are the same whatever the provider would answer. *)
Theorem update_keeps_droppos w d g :
  droppos (self w) = Some d ->
  droppos (self (snd (update w))) = Some d /\
  fst (update (on_self (with_provider g) w)) = fst (update w) /\
  self (snd (update (on_self (with_provider g) w)))
  = with_provider g (self (snd (update w))).
Proof.
  unfold with_provider.
  open_world w; evaluate; intros [=]; subst; cbv beta iota.
  all: destruct g as [g]; cbv beta iota; repeat case_step; repeat split.
Qed.

(** On the vehicle at 60 N, its target cached, the provider gone. *)
Lemma update_keeps_droppos_witness :
  droppos (self (snd (update at_60N)))
  = Some (ResultEntry {| latitude := 60; longitude := 1 |}) /\
  fst (update (on_self (with_provider unreachable) at_60N)) = fst (update at_60N).
Proof.
  destruct (update_keeps_droppos at_60N _ unreachable eq_refl) as (H1 & H2 & _).
  split; assumption.
Defined.

(** X11: a refresh is idempotent on the handler: after one that
    succeeded, a second one on the same link succeeds as well and
    leaves every attribute as the first left it. *)
Theorem update_twice w :
  fst (update w) = Ok tt ->
  fst (update (snd (update w))) = Ok tt /\
  self (snd (update (snd (update w)))) = self (snd (update w)).
Proof.
  open_world w; evaluate; repeat case_step; try discriminate; intros _; split; reflexivity.
Qed.

(** On the cruising vehicle. *)
Lemma update_twice_witness :
  self (snd (update (snd (update cruising)))) = self (snd (update cruising)).
Proof. apply (update_twice cruising). reflexivity. Defined.

(** X12: a reply of the target provider without a ["result"] entry
    stays in [self.droppos]: the refresh that fetched it fails, and so
    does every later refresh, which finds the reply cached and no
    drop position in it. *)
Theorem update_with_reply_cached w :
  (forall v loc rpy bat speed g m,
     vehicle (self w) = Some v ->
     Link.location_global_relative_frame v = Ok loc ->
     Link.attitude v = Ok rpy ->
     Link.battery v = Ok bat ->
     Link.groundspeed v = Ok speed ->
     Link.gps_0 v = Ok g ->
     Link.mode v = Ok m ->
     droppos (self w) = None ->
     interop_get_data (gs (self w)) "ugv" = Ok {| result := None |} ->
     fst (update w) = Raised (GeneralError "'result'") /\
     droppos (self (snd (update w))) = Some (WholeReply {| result := None |})) /\
  (forall r,
     droppos (self w) = Some (WholeReply r) ->
     is_ok (fst (update w)) = false /\
     droppos (self (snd (update w))) = Some (WholeReply r)).
Proof.
  split.
  - intros v loc rpy bat speed g m.
    open_world w; evaluate; intros [=]; subst; cbv beta iota.
    intros -> -> -> -> -> -> -> ->. split; reflexivity.
  - intros r. open_world w; evaluate; intros [=]; subst; cbv beta iota.
    all: repeat case_step; split; reflexivity.
Qed.

(** On a handler whose provider replies without a result. *)
Lemma update_with_reply_cached_witness :
  fst (update misinformed) = Raised (GeneralError "'result'") /\
  is_ok (fst (update (snd (update misinformed)))) = false.
Proof.
  destruct (update_with_reply_cached misinformed) as [Hfirst _].
  destruct (Hfirst _ _ _ _ _ _ _ eq_refl eq_refl eq_refl eq_refl eq_refl eq_refl eq_refl
              eq_refl eq_refl) as [Hfail Hdrop].
  split; [assumption |].
  destruct (update_with_reply_cached (snd (update misinformed))) as [_ Hlater].
  apply (Hlater _ Hdrop).
Defined.

(** X13: the distance of lines 157-162 along the axes.  For a target
    on the vehicle's latitude it is the difference of the longitudes
    times 69.172 * 5280 feet, at every latitude; for a target on the
    vehicle's longitude it is the difference of the latitudes times
    the same figure and the cosine of the latitude; it is zero on the
    target and never negative. *)
Theorem distance_along_the_axes (lat0 lon0 dlat dlon : R) :
  distance {| latitude := lat0; longitude := lon0 + dlon |} lat0 lon0
  = Rabs dlon * (69.172 * 5280) /\
  distance {| latitude := lat0 + dlat; longitude := lon0 |} lat0 lon0
  = Rabs dlat * Rabs (cos (lat0 * PI / 180)) * (69.172 * 5280) /\
  distance {| latitude := lat0; longitude := lon0 |} lat0 lon0 = 0 /\
  forall drop, 0 <= distance drop lat0 lon0.
Proof.
  assert (Hsqrt : forall x, sqrt (x ^ 2) = Rabs x).
  { intros x. rewrite <- Rsqr_pow2. apply sqrt_Rsqr_abs. }
  assert (Hk : Rabs (69.172 * 5280) = 69.172 * 5280) by (apply Rabs_pos_eq; lra).
  repeat split.
  - rewrite distance_written_out. cbn [latitude longitude].
    replace (((lat0 - lat0) * cos (lat0 * PI / 180) * 69.172 * 5280) ^ 2
             + ((lon0 + dlon - lon0) * 69.172 * 5280) ^ 2)
      with ((dlon * (69.172 * 5280)) ^ 2) by ring.
    rewrite Hsqrt, Rabs_mult, Hk. reflexivity.
  - rewrite distance_written_out. cbn [latitude longitude].
    replace (((lat0 + dlat - lat0) * cos (lat0 * PI / 180) * 69.172 * 5280) ^ 2
             + ((lon0 - lon0) * 69.172 * 5280) ^ 2)
      with ((dlat * cos (lat0 * PI / 180) * (69.172 * 5280)) ^ 2) by ring.
    rewrite Hsqrt, Rabs_mult, Hk, Rabs_mult. reflexivity.
  - rewrite distance_written_out. cbn [latitude longitude].
    replace (((lat0 - lat0) * cos (lat0 * PI / 180) * 69.172 * 5280) ^ 2
             + ((lon0 - lon0) * 69.172 * 5280) ^ 2)
      with (0 ^ 2) by ring.
    rewrite Hsqrt. apply Rabs_R0.
  - intros drop. unfold distance. apply sqrt_pos.
Qed.

(** X14: [connect] is the link put in [self.vehicle] followed by a
    refresh: with the link dronekit offers, it returns what [update]
    returns on the handler holding that link, a failure of the refresh
    coming out as a [GeneralError] with the same message. *)
Theorem connect_is_link_then_update w v :
  link_offered w = Ok v ->
  connect w = rewrapped (update (on_self (set_vehicle (Some v)) w)) /\
  forall e, fst (update (on_self (set_vehicle (Some v)) w)) = Raised e ->
            fst (connect w) = Raised e.
Proof.
  unfold link_offered, rewrapped.
  destruct w as [h dk lg];
    destruct h as [[?] ? [|] ? ? ? ? ? ? ? ? ? ? ? ? ? ? ?];
    evaluate; intros ->; destruct v; cbv beta iota;
    repeat case_step; (split; [reflexivity | intros ? [= <-]; reflexivity || discriminate]).
Qed.

(** With dronekit offering the cruising link. *)
Lemma connect_is_link_then_update_witness :
  connect about_to_connect
  = rewrapped (update (on_self (set_vehicle (Some cruising_link)) about_to_connect)).
Proof. apply (connect_is_link_then_update about_to_connect cruising_link eq_refl). Defined.

(** X15: [arm] does not refresh the snapshot.  After an [arm] that
    returned, the link reports the vehicle armed, and [get_armed]
    says [ARMED], while the handler's cached [armed] flag, like every
    other snapshot attribute, is what it was before. *)
Theorem arm_leaves_the_snapshot w v :
  vehicle (self w) = Some v ->
  fst (arm w) = Ok tt ->
  fst (get_armed (snd (arm w))) = Ok "ARMED" /\
  armed (self (snd (arm w))) = armed (self w) /\
  snapshot_of (self (snd (arm w))) = snapshot_of (self w) /\
  mode (self (snd (arm w))) = mode (self w).
Proof.
  unfold snapshot_of.
  open_world w; evaluate; intros [=]; subst; cbv beta iota.
  repeat case_step; try discriminate; intros _; repeat split.
Qed.

(** On a parked, armable vehicle. *)
Lemma arm_leaves_the_snapshot_witness :
  fst (get_armed (snd (arm parked))) = Ok "ARMED" /\
  armed (self (snd (arm parked))) = false.
Proof.
  destruct (arm_leaves_the_snapshot parked _ eq_refl eq_refl) as (H1 & H2 & _).
  split; assumption.
Defined.

(** X16: [get_flight_mode] returns the name of the link's mode and
    stores that name, a string, in [self.mode]; a [stats] that follows
    then fails on [self.mode.name] with an [AttributeError], which it
    does not catch, until a refresh stores a mode object again. *)
Theorem get_flight_mode_then_stats w v m :
  vehicle (self w) = Some v ->
  Link.mode v = Ok m ->
  fst (get_flight_mode w) = Ok (Link.name m) /\
  mode (self (snd (get_flight_mode w))) = ModeName (Link.name m) /\
  fst (stats (snd (get_flight_mode w)))
  = Raised (OtherError "AttributeError" "'str' object has no attribute 'name'") /\
  (fst (update (snd (get_flight_mode w))) = Ok tt ->
   mode (self (snd (update (snd (get_flight_mode w))))) = ModeObject m).
Proof.
  unfold get_flight_mode.
  open_world w; evaluate; intros [=]; subst; cbv beta iota. intros ->; cbv beta iota.
  repeat split. repeat case_step; try discriminate; reflexivity.
Qed.

(** On the cruising vehicle. *)
Lemma get_flight_mode_then_stats_witness :
  fst (get_flight_mode cruising) = Ok "AUTO" /\
  fst (stats (snd (get_flight_mode cruising)))
  = Raised (OtherError "AttributeError" "'str' object has no attribute 'name'").
Proof.
  destruct (get_flight_mode_then_stats cruising _ _ eq_refl eq_refl) as (H1 & _ & H3 & _).
  split; assumption.
Defined.

(** ** Parameters *)

(** X18: [get_param] of a key the link's mapping does not hold raises
    [GeneralError]; of a key it holds, it returns the value; either
    way the handler and the link's parameters are as before, the read
    is all that is added to the log.  The link holds its parameters
    under upper-case names and looks the key up in upper case. *)
Theorem get_param_of_any_key key w v :
  vehicle (self w) = Some v ->
  snd (get_param key w) = logged (Link.ParamGet key) w /\
  match Link.parameters v !! Text.upper key with
  | Some x => fst (get_param key w) = Ok x
  | None => exists m, fst (get_param key w) = Raised (GeneralError m)
  end.
Proof.
  intros Hv. rewrite (get_param_run key w v Hv). split; [reflexivity |].
  destruct (Link.parameters v !! Text.upper key); [reflexivity | eexists; reflexivity].
Qed.

(** On the cruising vehicle, for a key it has and one it has not. *)
Lemma get_param_of_any_key_witness :
  fst (get_param "wp_speed" cruising) = Ok (Link.VFloat (Text.Finite 2)) /\
  exists m, fst (get_param "NO_SUCH_KEY" cruising) = Raised (GeneralError m).
Proof.
  split.
  - apply (get_param_of_any_key "wp_speed" cruising cruising_link eq_refl).
  - apply (get_param_of_any_key "NO_SUCH_KEY" cruising cruising_link eq_refl).
Defined.

End MoreFacts.
